(** * The agent dispatch layer of [backend/server.py]

    A shallow embedding of the four agent-facing request handlers
    ([chat_with_agent], [search_and_summarize], [get_agent_capabilities],
    [generate_recipe]) and of the recipe extraction they perform.

    Python values are modelled as follows.
    - [str] is a Rocq [string]; the functions defined here only split, join
      and compare texts, so they are insensitive to the encoding of
      characters outside ASCII.
    - an exception is a value of [exn]; a call that may raise returns a
      [result]; a handler runs in the monad [M] that threads the three
      module-level agent slots and an exception channel.
    - library functions whose code is not part of the server ([str.strip],
      [str.title], [json.loads], the field validators of the response
      models) are the fields of the class [Library]; the constructors of
      the agent classes of [ai_agents.agents] are the fields of the class
      [Agents]. *)

From Stdlib Require Import String Ascii List ZArith Bool Lia SpecFloat DecimalString.
Import ListNotations.
Open Scope list_scope.
Open Scope string_scope.

(** ** Exceptions and results *)

(** The exception classes the handlers can meet.  All of them derive from
    [Exception]; [RuntimeError] stands for any class that does not derive
    from [ValueError]. *)
Inductive exn : Type :=
| JSONDecodeError (msg : string)
| ValueError (msg : string)
| ValidationError (msg : string)
| TypeError (msg : string)
| AttributeError (msg : string)
| HTTPException (status_code : Z) (detail : string)
| RuntimeError (msg : string).

Definition string_of_Z (z : Z) : string := NilZero.string_of_int (Z.to_int z).

(** [str(e)]; an [HTTPException] prints its status code and its detail. *)
Definition str (e : exn) : string :=
  match e with
  | JSONDecodeError msg | ValueError msg | ValidationError msg
  | TypeError msg | AttributeError msg | RuntimeError msg => msg
  | HTTPException status_code detail => string_of_Z status_code ++ ": " ++ detail
  end.

(** [isinstance(e, (json.JSONDecodeError, ValueError))]: the decoder's error
    and the validators' error are subclasses of [ValueError]. *)
Definition is_ValueError (e : exn) : bool :=
  match e with
  | JSONDecodeError _ | ValueError _ | ValidationError _ => true
  | _ => false
  end.

Inductive result (A : Type) : Type :=
| Ok (a : A)
| Raise (e : exn).
Arguments Ok {A} a.
Arguments Raise {A} e.

(** ** Texts *)

Definition dquote : string := String "034"%char "".
Definition nl : string := String "010"%char "".

(** [s] between double quotes. *)
Definition q (s : string) : string := dquote ++ s ++ dquote.

(** [sep.join(parts)]. *)
Definition join (sep : string) (parts : list string) : string := String.concat sep parts.

(** Truth value of an [Optional[str]]: [None] and the empty text are false. *)
Definition truthy (o : option string) : bool :=
  match o with
  | Some s => negb (s =? "")
  | None => false
  end.

(** Truth value of an [Optional[List[str]]]: [None] and the empty list are
    false. *)
Definition truthy_list (o : option (list string)) : bool :=
  match o with
  | Some (_ :: _) => true
  | _ => false
  end.

(** The text held by an optional field, read where the code has already
    tested it to be true. *)
Definition the (o : option string) : string :=
  match o with Some s => s | None => "" end.

Definition the_list (o : option (list string)) : list string :=
  match o with Some l => l | None => [] end.

(** [needle in haystack] on two texts. *)
Fixpoint is_substring (needle haystack : string) : bool :=
  String.prefix needle haystack
  || match haystack with
     | "" => false
     | String _ rest => is_substring needle rest
     end.

(** ** JSON values, as [json.loads] builds them *)

#[warnings="-register-all"]
Inductive json : Type :=
| JNull
| JBool (b : bool)
| JInt (n : Z)
| JFloat (f : spec_float)
| JStr (s : string)
| JList (items : list json)
| JDict (members : list (string * json)).

(** A Python [dict] with text keys, in insertion order. *)
Definition dict : Type := list (string * json).

Fixpoint dict_get (d : dict) (key : string) : option json :=
  match d with
  | [] => None
  | (k, v) :: rest => if k =? key then Some v else dict_get rest key
  end.

(** [key in d]. *)
Definition dict_has (d : dict) (key : string) : bool :=
  match dict_get d key with Some _ => true | None => false end.

(** [d.get(key, default)]. *)
Definition dict_get_default (d : dict) (key : string) (default : json) : json :=
  match dict_get d key with Some v => v | None => default end.

(** [d[key] = v]: an existing key keeps its place and takes the new value. *)
Fixpoint dict_set (d : dict) (key : string) (v : json) : dict :=
  match d with
  | [] => [(key, v)]
  | (k, w) :: rest => if k =? key then (k, v) :: rest else (k, w) :: dict_set rest key v
  end.

(** [type(v).__name__]. *)
Definition type_name (v : json) : string :=
  match v with
  | JNull => "NoneType"
  | JBool _ => "bool"
  | JInt _ => "int"
  | JFloat _ => "float"
  | JStr _ => "str"
  | JList _ => "list"
  | JDict _ => "dict"
  end.

(** [field in v] for a text [field]: key membership in a dict, element
    membership in a list, substring test in a text; the other values are
    not containers and the test raises [TypeError]. *)
Definition py_in (field : string) (v : json) : result bool :=
  match v with
  | JDict d => Ok (dict_has d field)
  | JList items =>
      Ok (existsb (fun x => match x with JStr s => s =? field | _ => false end) items)
  | JStr s => Ok (is_substring field s)
  | _ => Raise (TypeError ("argument of type '" ++ type_name v ++ "' is not iterable"))
  end.

(** ** The brace span of the response text

    [re.search(r'\{.*\}', content, re.DOTALL)]: the search tries the start
    positions from left to right; at a position holding an opening brace the
    greedy [.*] runs to the end of the text and backs up to the last closing
    brace. *)

(** Longest prefix of [s] that ends with a closing brace. *)
Fixpoint upto_last_rbrace (s : string) : option string :=
  match s with
  | "" => None
  | String c rest =>
      match upto_last_rbrace rest with
      | Some p => Some (String c p)
      | None => if (c =? "}")%char then Some (String c "") else None
      end
  end.

Fixpoint re_search_braces (content : string) : option string :=
  match content with
  | "" => None
  | String c rest =>
      if (c =? "{")%char then
        match upto_last_rbrace rest with
        | Some p => Some (String c p)
        | None => re_search_braces rest
        end
      else re_search_braces rest
  end.

(** The span as the specification words it: from the first opening brace to
    the last closing brace of the text, when the latter comes after the
    former. *)
Fixpoint first_index (c : ascii) (s : string) : option nat :=
  match s with
  | "" => None
  | String a rest =>
      if (a =? c)%char then Some 0
      else option_map S (first_index c rest)
  end.

Fixpoint last_index (c : ascii) (s : string) : option nat :=
  match s with
  | "" => None
  | String a rest =>
      match last_index c rest with
      | Some j => Some (S j)
      | None => if (a =? c)%char then Some 0 else None
      end
  end.

Definition spec_brace_span (text : string) : option string :=
  match first_index "{" text, last_index "}" text with
  | Some i, Some j =>
      if Nat.ltb i j then Some (String.substring i (j - i + 1) text) else None
  | _, _ => None
  end.

(** ** Library functions

    The behaviour of the Python and pydantic functions the handlers call.
    [dict_validator] and [int_validator] are the validators of the response
    fields [recipe: dict] and [sources_count: int]; a dict is accepted as it
    is by every version of the validator. *)
Class Library : Type := {
  str_strip : string -> string;
  str_title : string -> string;
  json_loads : string -> result json;
  dict_validator : json -> result dict;
  int_validator : json -> result Z;
  dict_validator_dict : forall d : dict, dict_validator (JDict d) = Ok d
}.

(** ** Request and response models *)

Record ChatRequest : Type := {
  message : string;
  agent_type : string;
  context : option dict
}.

Record ChatResponse : Type := {
  chat_success : bool;
  chat_response : string;
  chat_agent_type : string;
  chat_capabilities : list string;
  chat_metadata : dict;
  chat_error : option string
}.

Record SearchRequest : Type := {
  query : string;
  max_results : Z
}.

Record SearchResponse : Type := {
  search_success : bool;
  search_query : string;
  search_summary : string;
  search_results : option dict;
  search_sources_count : Z;
  search_error : option string
}.

Record RecipeRequest : Type := {
  ingredients : list string;
  dietary_restrictions : option (list string);
  cuisine_type : option string;
  meal_type : option string;
  cooking_time : option string
}.

Record RecipeResponse : Type := {
  recipe_success : bool;
  recipe : dict;
  recipe_error : option string
}.

(** ** Agents *)

(** What [execute] returns. *)
Record AgentResult : Type := {
  success : bool;
  content : string;
  metadata : dict;
  error : option string
}.

(** An agent handle: [execute(prompt, use_tools)] ([None] when the caller
    leaves [use_tools] to its default) and [get_capabilities()]. *)
Record Agent : Type := {
  execute : string -> option bool -> result AgentResult;
  get_capabilities : result (list string)
}.

(** The module-level slots [search_agent], [chat_agent], [recipe_agent]. *)
Record Globals : Type := {
  search_agent : option Agent;
  chat_agent : option Agent;
  recipe_agent : option Agent
}.

(** ** The handler monad: global slots and exceptions

    An assignment to a slot made before an exception is raised stays. *)
Definition M (A : Type) : Type := Globals -> result A * Globals.

Definition ret {A} (a : A) : M A := fun g => (Ok a, g).

Definition raise {A} (e : exn) : M A := fun g => (Raise e, g).

Definition bind {A B} (m : M A) (k : A -> M B) : M B :=
  fun g =>
    match m g with
    | (Ok a, g') => k a g'
    | (Raise e, g') => (Raise e, g')
    end.

Definition lift {A} (r : result A) : M A := fun g => (r, g).

Definition get_globals : M Globals := fun g => (Ok g, g).

Definition set_search_agent (a : Agent) : M unit :=
  fun g => (Ok tt, {| search_agent := Some a; chat_agent := chat_agent g;
                      recipe_agent := recipe_agent g |}).

Definition set_chat_agent (a : Agent) : M unit :=
  fun g => (Ok tt, {| search_agent := search_agent g; chat_agent := Some a;
                      recipe_agent := recipe_agent g |}).

Definition set_recipe_agent (a : Agent) : M unit :=
  fun g => (Ok tt, {| search_agent := search_agent g; chat_agent := chat_agent g;
                      recipe_agent := Some a |}).

(** [try: body / except <classes> as e: handler e]; an exception outside
    the listed classes goes on to the enclosing block. *)
Definition try_except {A} (body : M A) (caught : exn -> bool) (handler : exn -> M A) : M A :=
  fun g =>
    match body g with
    | (Ok a, g') => (Ok a, g')
    | (Raise e, g') => if caught e then handler e g' else (Raise e, g')
    end.

(** [except Exception]: every class of [exn] derives from [Exception]. *)
Definition is_Exception (e : exn) : bool := true.

Declare Scope py_scope.
Delimit Scope py_scope with py.
Notation "x <- m ;; k" := (bind m (fun x => k))
  (at level 61, m at next level, right associativity) : py_scope.
Notation "m ;;; k" := (bind m (fun _ => k))
  (at level 61, right associativity) : py_scope.

Definition is_None {A} (o : option A) : bool :=
  match o with None => true | Some _ => false end.

(** The agent classes imported from [ai_agents.agents]: the outcome of each
    constructor on the shared configuration. *)
Class Agents : Type := {
  AgentConfig : Type;
  agent_config : AgentConfig;
  SearchAgent : AgentConfig -> result Agent;
  ChatAgent : AgentConfig -> result Agent;
  RecipeAgent : AgentConfig -> result Agent
}.

Section Server.

Context {lib : Library} {agents : Agents}.

Open Scope py_scope.

(** ** [POST /chat] *)

(** The [try] block of the handler. *)
Definition chat_dispatch (request : ChatRequest) : M ChatResponse :=
  g <- get_globals ;;
  (* Init agents if needed *)
  (if (agent_type request =? "search") && is_None (search_agent g) then
     a <- lift (SearchAgent agent_config) ;; set_search_agent a
   else if (agent_type request =? "chat") && is_None (chat_agent g) then
     a <- lift (ChatAgent agent_config) ;; set_chat_agent a
   else ret tt) ;;;
  g <- get_globals ;;
  (* Select agent *)
  let agent := if agent_type request =? "search" then search_agent g else chat_agent g in
  match agent with
  | None => raise (HTTPException 500 "Failed to initialize agent")
  | Some agent =>
      (* Execute agent *)
      response <- lift (execute agent (message request) None) ;;
      capabilities <- lift (get_capabilities agent) ;;
      ret {| chat_success := success response;
             chat_response := content response;
             chat_agent_type := agent_type request;
             chat_capabilities := capabilities;
             chat_metadata := metadata response;
             chat_error := error response |}
  end.

Definition chat_with_agent (request : ChatRequest) : M ChatResponse :=
  try_except
    (chat_dispatch request)
    is_Exception
    (fun e =>
       ret {| chat_success := false;
              chat_response := "";
              chat_agent_type := agent_type request;
              chat_capabilities := [];
              chat_metadata := [];
              chat_error := Some (str e) |}).

(** ** [POST /search] *)

Definition search_prompt (request : SearchRequest) : string :=
  "Search for information about: " ++ query request
  ++ ". Provide a comprehensive summary with key findings.".

Definition search_and_summarize (request : SearchRequest) : M SearchResponse :=
  try_except
    (g <- get_globals ;;
     (* Init search agent if needed *)
     (if is_None (search_agent g) then
        a <- lift (SearchAgent agent_config) ;; set_search_agent a
      else ret tt) ;;;
     g <- get_globals ;;
     match search_agent g with
     | None => raise (AttributeError "'NoneType' object has no attribute 'execute'")
     | Some agent =>
         (* Search with agent *)
         result <- lift (execute agent (search_prompt request) (Some true)) ;;
         if success result then
           sources_count <-
             lift (int_validator (dict_get_default (metadata result) "tools_used" (JInt 0))) ;;
           ret {| search_success := true;
                  search_query := query request;
                  search_summary := content result;
                  search_results := Some (metadata result);
                  search_sources_count := sources_count;
                  search_error := None |}
         else
           ret {| search_success := false;
                  search_query := query request;
                  search_summary := "";
                  search_results := None;
                  search_sources_count := 0;
                  search_error := error result |}
     end)
    is_Exception
    (fun e =>
       ret {| search_success := false;
              search_query := query request;
              search_summary := "";
              search_results := None;
              search_sources_count := 0;
              search_error := Some (str e) |}).

(** ** [GET /agents/capabilities]

    The handler returns a plain dict; a [Raise] that leaves it is what the
    framework answers with status 500. *)

Definition json_strings (l : list string) : json := JList (map JStr l).

Definition get_agent_capabilities : M json :=
  try_except
    (search <- lift (SearchAgent agent_config) ;;
     search_capabilities <- lift (get_capabilities search) ;;
     chat <- lift (ChatAgent agent_config) ;;
     chat_capabilities <- lift (get_capabilities chat) ;;
     let capabilities :=
       JDict [("search_agent", json_strings search_capabilities);
              ("chat_agent", json_strings chat_capabilities)] in
     ret (JDict [("success", JBool true); ("capabilities", capabilities)]))
    is_Exception
    (fun e => ret (JDict [("success", JBool false); ("error", JStr (str e))])).

(** ** [POST /recipes/generate] *)

(** The literal that closes the prompt. *)
Definition recipe_template : string :=
  nl ++ join nl
    [ "{";
      "  " ++ q "name" ++ ": " ++ q "Recipe Name" ++ ",";
      "  " ++ q "description" ++ ": " ++ q "Brief description" ++ ",";
      "  " ++ q "prep_time" ++ ": " ++ q "X minutes" ++ ",";
      "  " ++ q "cook_time" ++ ": " ++ q "X minutes" ++ ",";
      "  " ++ q "servings" ++ ": " ++ q "X" ++ ",";
      "  " ++ q "difficulty" ++ ": " ++ q "Easy/Medium/Hard" ++ ",";
      "  " ++ q "ingredients" ++ ": [";
      "    {" ++ q "item" ++ ": " ++ q "ingredient name" ++ ", "
             ++ q "amount" ++ ": " ++ q "quantity" ++ ", "
             ++ q "unit" ++ ": " ++ q "unit" ++ "}";
      "  ],";
      "  " ++ q "instructions" ++ ": [";
      "    {" ++ q "step" ++ ": 1, " ++ q "instruction" ++ ": " ++ q "First step" ++ "},";
      "    {" ++ q "step" ++ ": 2, " ++ q "instruction" ++ ": " ++ q "Second step" ++ "}";
      "  ],";
      "  " ++ q "tips" ++ ": [" ++ q "helpful tip 1" ++ ", " ++ q "helpful tip 2" ++ "],";
      "  " ++ q "nutrition" ++ ": {";
      "    " ++ q "calories" ++ ": " ++ q "approximate calories per serving" ++ ",";
      "    " ++ q "protein" ++ ": " ++ q "protein content" ++ ",";
      "    " ++ q "carbs" ++ ": " ++ q "carbohydrate content" ++ ",";
      "    " ++ q "fat" ++ ": " ++ q "fat content";
      "  }";
      "}" ].

(** [prompt_parts], as the handler fills it. *)
Definition prompt_parts (request : RecipeRequest) : list string :=
  let ingredients_list := join ", " (ingredients request) in
  let restrictions := join ", " (the_list (dietary_restrictions request)) in
  ([("Create a detailed recipe using these ingredients: " ++ ingredients_list)%string]
   ++ (if truthy_list (dietary_restrictions request) then
         [("Dietary restrictions: " ++ restrictions)%string]
       else [])
   ++ (if truthy (cuisine_type request) then
         [("Cuisine type: " ++ the (cuisine_type request))%string]
       else [])
   ++ (if truthy (meal_type request) then
         [("Meal type: " ++ the (meal_type request))%string]
       else [])
   ++ (if truthy (cooking_time request) then
         [("Cooking time preference: " ++ the (cooking_time request))%string]
       else [])
   ++ [recipe_template])%list.

Definition recipe_prompt (request : RecipeRequest) : string :=
  join nl (prompt_parts request).

Definition required_fields : list string :=
  ["name"; "description"; "prep_time"; "cook_time"; "servings"; "difficulty";
   "ingredients"; "instructions"].

(** The validation loop over [required_fields]. *)
Fixpoint validate_required_fields (fields : list string) (recipe_data : json) : result unit :=
  match fields with
  | [] => Ok tt
  | field :: rest =>
      match py_in field recipe_data with
      | Raise e => Raise e
      | Ok true => validate_required_fields rest recipe_data
      | Ok false => Raise (ValueError ("Missing required field: " ++ field))
      end
  end.

(** The record built in the [except] branch from the request alone. *)
Definition fallback_recipe (request : RecipeRequest) : dict :=
    [ ("name",
       JStr (str_strip
               ((if truthy (cuisine_type request)
                 then str_title (the (cuisine_type request)) else "")
                ++ " "
                ++ (if truthy (meal_type request)
                    then str_title (the (meal_type request)) else "Dish")
                ++ " with " ++ join ", " (firstn 2 (ingredients request)))));
      ("description",
       JStr ("A delicious recipe using " ++ join ", " (ingredients request) ++ " with "
             ++ (if truthy_list (dietary_restrictions request)
                 then join ", " (the_list (dietary_restrictions request))
                 else "no dietary restrictions")));
      ("prep_time", JStr "15 minutes");
      ("cook_time",
       JStr (if truthy (cooking_time request) then the (cooking_time request)
             else "30 minutes"));
      ("servings", JStr "4");
      ("difficulty", JStr "Medium");
      ("ingredients",
       JList (map (fun ing =>
                     JDict [("item", JStr ing); ("amount", JStr "1-2");
                            ("unit", JStr "portions")])
                  (ingredients request)));
      ("instructions",
       JList
         [ JDict [("step", JInt 1);
                  ("instruction",
                   JStr ("Prepare all ingredients: " ++ join ", " (ingredients request)))];
           JDict [("step", JInt 2);
                  ("instruction", JStr "Heat oil in a large pan over medium heat")];
           JDict [("step", JInt 3);
                  ("instruction",
                   JStr "Add ingredients and cook according to recipe requirements")];
           JDict [("step", JInt 4);
                  ("instruction", JStr "Season with salt, pepper, and herbs to taste")];
           JDict [("step", JInt 5); ("instruction", JStr "Serve hot and enjoy!")] ]);
      ("tips",
       JList [ JStr "Adjust seasoning to taste";
               JStr "Feel free to substitute ingredients based on availability" ]);
      ("nutrition",
       JDict [ ("calories", JStr "300-400 per serving");
               ("protein", JStr "15-25g");
               ("carbs", JStr "20-40g");
               ("fat", JStr "10-20g") ]) ].

(** [RecipeResponse(success=..., recipe=..., error=...)]. *)
Definition new_RecipeResponse (success : bool) (recipe : json) (error : option string)
  : result RecipeResponse :=
  match dict_validator recipe with
  | Ok d => Ok {| recipe_success := success; recipe := d; recipe_error := error |}
  | Raise e => Raise e
  end.

(** The text handed to [json.loads]. *)
Definition json_candidate (raw : string) : string :=
  let content := str_strip raw in
  match re_search_braces content with
  | Some json_str => json_str
  | None => content
  end.

(** The inner [try] of the handler: decode, validate, and on a decoding or
    value error fall back to the synthesized record. *)
Definition extract_recipe (request : RecipeRequest) (raw : string) : M json :=
  try_except
    (recipe_data <- lift (json_loads (json_candidate raw)) ;;
     lift (validate_required_fields required_fields recipe_data) ;;;
     ret recipe_data)
    is_ValueError
    (fun _ => ret (JDict (fallback_recipe request))).

Definition generate_recipe (request : RecipeRequest) : M RecipeResponse :=
  try_except
    (g <- get_globals ;;
     (* Init recipe agent if needed *)
     (if is_None (recipe_agent g) then
        a <- lift (RecipeAgent agent_config) ;; set_recipe_agent a
      else ret tt) ;;;
     g <- get_globals ;;
     match recipe_agent g with
     | None => raise (AttributeError "'NoneType' object has no attribute 'execute'")
     | Some agent =>
         (* Execute agent *)
         result <- lift (execute agent (recipe_prompt request) None) ;;
         if success result then
           recipe_data <- extract_recipe request (content result) ;;
           lift (new_RecipeResponse true recipe_data None)
         else
           lift (new_RecipeResponse false (JDict []) (error result))
     end)
    is_Exception
    (fun e => lift (new_RecipeResponse false (JDict []) (Some (str e)))).

End Server.

(** ** An executable library for ASCII texts

    An instance of [Library] on which the handlers run: [strip] and [title]
    as Python computes them on ASCII text, the response validators in their
    strict form, and a decoder for the JSON texts made of objects, arrays,
    texts without escapes, integers and the literals.  On a text that needs
    an escape or a fractional number the decoder answers [Unsupported],
    which the instance turns into a [RuntimeError]; the messages of the
    decoder's errors, which the server only logs, are not modelled. *)
Module Reference.

Local Open Scope nat_scope.

Definition code (c : ascii) : nat := nat_of_ascii c.

Definition is_space (c : ascii) : bool :=
  ((9 <=? code c) && (code c <=? 13)) || ((28 <=? code c) && (code c <=? 32)).

Fixpoint lstrip (s : string) : string :=
  match s with
  | String c rest => if is_space c then lstrip rest else s
  | "" => ""
  end.

Fixpoint rstrip (s : string) : string :=
  match s with
  | String c rest =>
      let rest' := rstrip rest in
      if (rest' =? "")%string && is_space c then "" else String c rest'
  | "" => ""
  end.

Definition strip (s : string) : string := rstrip (lstrip s).

Definition is_lower (c : ascii) : bool := (97 <=? code c) && (code c <=? 122).
Definition is_upper (c : ascii) : bool := (65 <=? code c) && (code c <=? 90).
Definition upper (c : ascii) : ascii := if is_lower c then ascii_of_nat (code c - 32) else c.
Definition lower (c : ascii) : ascii := if is_upper c then ascii_of_nat (code c + 32) else c.

(** A letter that follows a letter is lowered, any other letter is raised. *)
Fixpoint title_from (previous_is_cased : bool) (s : string) : string :=
  match s with
  | String c rest =>
      String (if previous_is_cased then lower c else upper c)
             (title_from (is_lower c || is_upper c) rest)
  | "" => ""
  end.

Definition title (s : string) : string := title_from false s.

Inductive parsed (A : Type) : Type :=
| Parsed (a : A) (rest : string)
| Malformed
| Unsupported.
Arguments Parsed {A} a rest.
Arguments Malformed {A}.
Arguments Unsupported {A}.

Definition is_json_space (c : ascii) : bool :=
  (code c =? 32) || (code c =? 9) || (code c =? 10) || (code c =? 13).

Fixpoint skip_space (s : string) : string :=
  match s with
  | String c rest => if is_json_space c then skip_space rest else s
  | "" => ""
  end.

Definition is_digit (c : ascii) : bool := (48 <=? code c) && (code c <=? 57).

(** The body of a text, read after its opening quote. *)
Fixpoint scan_string (s : string) : parsed string :=
  match s with
  | "" => Malformed
  | String c rest =>
      if code c =? 34 then Parsed "" rest
      else if code c =? 92 then Unsupported
      else if code c <? 32 then Malformed
      else match scan_string rest with
           | Parsed t rest' => Parsed (String c t) rest'
           | Malformed => Malformed
           | Unsupported => Unsupported
           end
  end.

(** The digits at the head of [s], folded into [acc]. *)
Fixpoint scan_digits (acc : Z) (s : string) : Z * string :=
  match s with
  | String c rest =>
      if is_digit c then scan_digits (10 * acc + Z.of_nat (code c - 48)) rest
      else (acc, s)
  | "" => (acc, s)
  end.

Definition starts_with_digit (s : string) : bool :=
  match s with String c _ => is_digit c | "" => false end.

(** Whether a fraction or an exponent follows the integer part. *)
Definition float_follows (s : string) : bool :=
  match s with
  | String c rest =>
      if code c =? 46 then starts_with_digit rest
      else if (code c =? 101) || (code c =? 69) then
        match rest with
        | String d rest' =>
            if (code d =? 43) || (code d =? 45) then starts_with_digit rest'
            else is_digit d
        | "" => false
        end
      else false
  | "" => false
  end.

(** The integer part [0|[1-9][0-9]*] at the head of [s]. *)
Definition scan_integer (negative : bool) (s : string) : parsed json :=
  match s with
  | String c rest =>
      if is_digit c then
        let '(n, rest') := if code c =? 48 then (0%Z, rest) else scan_digits 0 s in
        if float_follows rest' then Unsupported
        else Parsed (JInt (if negative then - n else n)%Z) rest'
      else Malformed
  | "" => Malformed
  end.

Definition literal (word : string) (v : json) (s : string) : parsed json :=
  if String.prefix word s
  then Parsed v (String.substring (String.length word) (String.length s) s)
  else Malformed.

Fixpoint parse_value (fuel : nat) (s : string) : parsed json :=
  match fuel with
  | O => Unsupported
  | S fuel =>
      match s with
      | "" => Malformed
      | String c rest =>
          if code c =? 34 then
            match scan_string rest with
            | Parsed t rest' => Parsed (JStr t) rest'
            | Malformed => Malformed
            | Unsupported => Unsupported
            end
          else if code c =? 123 then
            match skip_space rest with
            | String d rest' =>
                if code d =? 125 then Parsed (JDict []) rest'
                else parse_members fuel (String d rest') []
            | "" => Malformed
            end
          else if code c =? 91 then
            match skip_space rest with
            | String d rest' =>
                if code d =? 93 then Parsed (JList []) rest'
                else parse_items fuel (String d rest') []
            | "" => Malformed
            end
          else if code c =? 110 then literal "null" JNull s
          else if code c =? 116 then literal "true" (JBool true) s
          else if code c =? 102 then literal "false" (JBool false) s
          else if is_digit c then scan_integer false s
          else if code c =? 45 then
            if starts_with_digit rest then scan_integer true rest
            else literal "-Infinity" (JFloat (S754_infinity true)) s
          else if code c =? 78 then literal "NaN" (JFloat S754_nan) s
          else if code c =? 73 then literal "Infinity" (JFloat (S754_infinity false)) s
          else Malformed
      end
  end

with parse_members (fuel : nat) (s : string) (members : dict) : parsed json :=
  match fuel with
  | O => Unsupported
  | S fuel =>
      match s with
      | String c rest =>
          if code c =? 34 then
            match scan_string rest with
            | Parsed key rest1 =>
                match skip_space rest1 with
                | String colon rest2 =>
                    if code colon =? 58 then
                      match parse_value fuel (skip_space rest2) with
                      | Parsed v rest3 =>
                          let members := dict_set members key v in
                          match skip_space rest3 with
                          | String d rest4 =>
                              if code d =? 125 then Parsed (JDict members) rest4
                              else if code d =? 44 then
                                parse_members fuel (skip_space rest4) members
                              else Malformed
                          | "" => Malformed
                          end
                      | Malformed => Malformed
                      | Unsupported => Unsupported
                      end
                    else Malformed
                | "" => Malformed
                end
            | Malformed => Malformed
            | Unsupported => Unsupported
            end
          else Malformed
      | "" => Malformed
      end
  end

with parse_items (fuel : nat) (s : string) (items : list json) : parsed json :=
  match fuel with
  | O => Unsupported
  | S fuel =>
      match parse_value fuel s with
      | Parsed v rest =>
          let items := (items ++ [v])%list in
          match skip_space rest with
          | String d rest' =>
              if code d =? 93 then Parsed (JList items) rest'
              else if code d =? 44 then parse_items fuel (skip_space rest') items
              else Malformed
          | "" => Malformed
          end
      | Malformed => Malformed
      | Unsupported => Unsupported
      end
  end.

Definition loads (s : string) : result json :=
  match parse_value (2 * String.length s + 2) (skip_space s) with
  | Parsed v rest =>
      if (skip_space rest =? "")%string then Ok v
      else Raise (JSONDecodeError "Extra data")
  | Malformed => Raise (JSONDecodeError "Expecting value")
  | Unsupported => Raise (RuntimeError "text outside the modelled JSON fragment")
  end.

Definition strict_dict (v : json) : result dict :=
  match v with
  | JDict d => Ok d
  | _ => Raise (ValidationError "Input should be a valid dictionary")
  end.

Definition strict_int (v : json) : result Z :=
  match v with
  | JInt n => Ok n
  | _ => Raise (ValidationError "Input should be a valid integer")
  end.

#[export] Instance library : Library := {
  str_strip := strip;
  str_title := title;
  json_loads := loads;
  dict_validator := strict_dict;
  int_validator := strict_int;
  dict_validator_dict := fun d => eq_refl
}.

End Reference.

(** ** Definitions used by the statements *)

Section Statements.

Context {lib : Library} {agents : Agents}.

(** The agent a handler runs: the one held by the slot, or else the one the
    constructor returns. *)
Definition resolve (slot : option Agent) (constructor : AgentConfig -> result Agent)
  : result Agent :=
  match slot with
  | Some agent => Ok agent
  | None => constructor agent_config
  end.

(** The candidate text in the words of the specification: the trimmed text
    cut to its brace span, or the whole trimmed text without one. *)
Definition spec_candidate (raw : string) : string :=
  let trimmed := str_strip raw in
  match spec_brace_span trimmed with
  | Some span => span
  | None => trimmed
  end.

(** A record is valid when it holds the eight required keys. *)
Definition valid_record (d : dict) : bool := forallb (dict_has d) required_fields.

(** Values on which a membership test is an error. *)
Definition is_scalar (v : json) : bool :=
  match v with
  | JNull | JBool _ | JInt _ | JFloat _ => true
  | JStr _ | JList _ | JDict _ => false
  end.

(** The outcome of the inner [try] of [generate_recipe], without the
    monad. *)
Definition extract_outcome (request : RecipeRequest) (raw : string) : result json :=
  match json_loads (json_candidate raw) with
  | Ok recipe_data =>
      match validate_required_fields required_fields recipe_data with
      | Ok _ => Ok recipe_data
      | Raise e => if is_ValueError e then Ok (JDict (fallback_recipe request)) else Raise e
      end
  | Raise e => if is_ValueError e then Ok (JDict (fallback_recipe request)) else Raise e
  end.

(** Two of the ways into the fallback: the decoder raises its own
    [JSONDecodeError], or it returns a value on which the membership test
    of some required field answers [False]. *)
Definition parse_fails_or_key_missing (raw : string) : Prop :=
  (exists msg, json_loads (json_candidate raw) = Raise (JSONDecodeError msg))
  \/ (exists v field,
        json_loads (json_candidate raw) = Ok v
        /\ In field required_fields
        /\ py_in field v = Ok false).

(** The [except] branch of the inner [try] is entered: the decoder or the
    validation loop raised an exception of the listed classes. *)
Definition fallback_activated (raw : string) : Prop :=
  exists e,
    is_ValueError e = true
    /\ (json_loads (json_candidate raw) = Raise e
        \/ exists v,
             json_loads (json_candidate raw) = Ok v
             /\ validate_required_fields required_fields v = Raise e).

End Statements.

(** The entry of the fallback record for one requested ingredient. *)
Definition fallback_ingredient (ing : string) : json :=
  JDict [("item", JStr ing); ("amount", JStr "1-2"); ("unit", JStr "portions")].

(** The step number of an entry of [instructions]. *)
Definition step_of (entry : json) : option json :=
  match entry with
  | JDict d => dict_get d "step"
  | _ => None
  end.

(** The prompt in the words of the specification: an optional field gives a
    line whenever it is present. *)
Definition spec_prompt_parts (request : RecipeRequest) : list string :=
  ([("Create a detailed recipe using these ingredients: "
     ++ join ", " (ingredients request))%string]
   ++ match dietary_restrictions request with
      | Some (r :: rs) => [("Dietary restrictions: " ++ join ", " (r :: rs))%string]
      | _ => []
      end
   ++ match cuisine_type request with
      | Some c => [("Cuisine type: " ++ c)%string]
      | None => []
      end
   ++ match meal_type request with
      | Some m => [("Meal type: " ++ m)%string]
      | None => []
      end
   ++ match cooking_time request with
      | Some t => [("Cooking time preference: " ++ t)%string]
      | None => []
      end
   ++ [recipe_template])%list.

(** The line of an optional text field: present and not empty. *)
Definition optional_line (label : string) (field : option string) : list string :=
  match field with
  | Some "" => []
  | Some text => [label ++ text]
  | None => []
  end.

(** The prompt with the lines of the optional fields restricted to the
    fields that are present and not empty. *)
Definition nonempty_prompt_parts (request : RecipeRequest) : list string :=
  ([("Create a detailed recipe using these ingredients: "
     ++ join ", " (ingredients request))%string]
   ++ match dietary_restrictions request with
      | Some (r :: rs) => [("Dietary restrictions: " ++ join ", " (r :: rs))%string]
      | _ => []
      end
   ++ optional_line "Cuisine type: " (cuisine_type request)
   ++ optional_line "Meal type: " (meal_type request)
   ++ optional_line "Cooking time preference: " (cooking_time request)
   ++ [recipe_template])%list.

(** ** Concrete agents and requests *)
Module Demo.

Import Reference.

(** An agent whose [execute] returns [r] on every prompt. *)
Definition answering (r : AgentResult) : Agent :=
  {| execute := fun _ _ => Ok r;
     get_capabilities := Ok ["conversation"; "reasoning"] |}.

Definition succeeded (text : string) : AgentResult :=
  {| success := true; content := text; metadata := []; error := None |}.

Definition failed (text : string) : AgentResult :=
  {| success := false; content := ""; metadata := []; error := Some text |}.

(** Every constructor returns an agent answering [r]. *)
Definition agents_answering (r : AgentResult) : Agents :=
  {| AgentConfig := unit;
     agent_config := tt;
     SearchAgent := fun _ => Ok (answering r);
     ChatAgent := fun _ => Ok (answering r);
     RecipeAgent := fun _ => Ok (answering r) |}.

(** Every constructor raises [e]. *)
Definition agents_unavailable (e : exn) : Agents :=
  {| AgentConfig := unit;
     agent_config := tt;
     SearchAgent := fun _ => Raise e;
     ChatAgent := fun _ => Raise e;
     RecipeAgent := fun _ => Raise e |}.

(** The slots at process start. *)
Definition no_agents : Globals :=
  {| search_agent := None; chat_agent := None; recipe_agent := None |}.

Definition chicken_rice : RecipeRequest :=
  {| ingredients := ["chicken"; "rice"];
     dietary_restrictions := Some [];
     cuisine_type := Some "thai";
     meal_type := None;
     cooking_time := None |}.

(** A request whose cuisine is present and empty. *)
Definition empty_cuisine : RecipeRequest :=
  {| ingredients := ["chicken"; "rice"];
     dietary_restrictions := Some [];
     cuisine_type := Some "";
     meal_type := None;
     cooking_time := None |}.

Definition member (key value : string) : string := q key ++ ":" ++ q value.

(** An agent answer that wraps a complete record in prose. *)
Definition thai_answer : string :=
  "Here you go: {"
  ++ join "," [ member "name" "Thai Chicken Rice"; member "description" "...";
                member "prep_time" "10m"; member "cook_time" "20m";
                member "servings" "2"; member "difficulty" "Easy";
                q "ingredients" ++ ":[]"; q "instructions" ++ ":[]" ]
  ++ "}".

Definition thai_record : dict :=
  [ ("name", JStr "Thai Chicken Rice"); ("description", JStr "...");
    ("prep_time", JStr "10m"); ("cook_time", JStr "20m");
    ("servings", JStr "2"); ("difficulty", JStr "Easy");
    ("ingredients", JList []); ("instructions", JList []) ].

Definition rust_query : SearchRequest :=
  {| query := "rust ownership"; max_results := 5 |}.

Definition unknown_type_request : ChatRequest :=
  {| message := "hello"; agent_type := "translator"; context := None |}.

Definition chat_request : ChatRequest :=
  {| message := "hello"; agent_type := "chat"; context := None |}.

End Demo.

(** ** Further definitions used by the statements *)

(** [c] does not occur in [s]. *)
Fixpoint lacks (c : ascii) (s : string) : bool :=
  match s with
  | "" => true
  | String a rest => negb (a =? c)%char && lacks c rest
  end.

(** The slots after an agent has been stored in one of them. *)
Definition with_search_agent (g : Globals) (a : Agent) : Globals :=
  {| search_agent := Some a; chat_agent := chat_agent g; recipe_agent := recipe_agent g |}.

Definition with_chat_agent (g : Globals) (a : Agent) : Globals :=
  {| search_agent := search_agent g; chat_agent := Some a; recipe_agent := recipe_agent g |}.

Definition with_recipe_agent (g : Globals) (a : Agent) : Globals :=
  {| search_agent := search_agent g; chat_agent := chat_agent g; recipe_agent := Some a |}.

(** The two responses of [/chat]: the one built from the answer of the
    agent and the one built from an exception. *)
Definition chat_reply (request : ChatRequest) (response : AgentResult)
           (capabilities : list string) : ChatResponse :=
  {| chat_success := success response;
     chat_response := content response;
     chat_agent_type := agent_type request;
     chat_capabilities := capabilities;
     chat_metadata := metadata response;
     chat_error := error response |}.

Definition chat_failure (request : ChatRequest) (e : exn) : ChatResponse :=
  {| chat_success := false;
     chat_response := "";
     chat_agent_type := agent_type request;
     chat_capabilities := [];
     chat_metadata := [];
     chat_error := Some (str e) |}.

(** The first field of [fields] that is not a key of [d]. *)
Definition first_missing (fields : list string) (d : dict) : option string :=
  find (fun field => negb (dict_has d field)) fields.

Section Outcomes.

Context {lib : Library} {agents : Agents}.

(** The agent [/chat] runs: the search agent for the type "search", the
    chat agent for the type "chat", each constructed when its slot is
    empty; for any other type the chat slot as it is. *)
Definition chat_resolve (request : ChatRequest) (g : Globals) : result Agent :=
  if agent_type request =? "search" then resolve (search_agent g) SearchAgent
  else if agent_type request =? "chat" then resolve (chat_agent g) ChatAgent
  else match chat_agent g with
       | Some agent => Ok agent
       | None => Raise (HTTPException 500 "Failed to initialize agent")
       end.

(** The response of [/search] built from an exception. *)
Definition search_failure (request : SearchRequest) (err : option string) : SearchResponse :=
  {| search_success := false;
     search_query := query request;
     search_summary := "";
     search_results := None;
     search_sources_count := 0;
     search_error := err |}.

End Outcomes.

(** ** Further concrete agents and requests *)
Module Cases.

Import Demo.

(** An agent whose [execute] raises [e]. *)
Definition raising (e : exn) : Agent :=
  {| execute := fun _ _ => Raise e;
     get_capabilities := Ok ["conversation"; "reasoning"] |}.

(** An agent that answers [r] and whose capability listing raises [e]. *)
Definition unlisted (r : AgentResult) (e : exn) : Agent :=
  {| execute := fun _ _ => Ok r; get_capabilities := Raise e |}.

(** Every constructor returns [agent]. *)
Definition agents_returning (agent : Agent) : Agents :=
  {| AgentConfig := unit;
     agent_config := tt;
     SearchAgent := fun _ => Ok agent;
     ChatAgent := fun _ => Ok agent;
     RecipeAgent := fun _ => Ok agent |}.

(** A successful search result that reports [tools_used]. *)
Definition searched (summary : string) (tools_used : json) : AgentResult :=
  {| success := true;
     content := summary;
     metadata := [("tools_used", tools_used)];
     error := None |}.

Definition search_type_request : ChatRequest :=
  {| message := "what is new in Rocq"; agent_type := "search"; context := None |}.

Definition quick_request : RecipeRequest :=
  {| ingredients := ["egg"];
     dietary_restrictions := Some ["vegetarian"];
     cuisine_type := Some "french";
     meal_type := Some "breakfast";
     cooking_time := Some "10 minutes" |}.

(** The number of opening square brackets at the head of a text. *)
Fixpoint leading_brackets (s : string) : nat :=
  match s with
  | String c rest => if (c =? "[")%char then S (leading_brackets rest) else 0
  | "" => 0
  end.

(** A decoder with a recursion limit: on a text that opens more than
    [limit] nested arrays it raises the error of an exhausted stack, which
    is not of the [ValueError] family. *)
Definition loads_limited (limit : nat) (s : string) : result json :=
  if Nat.ltb limit (leading_brackets s)
  then Raise (RuntimeError "maximum recursion depth exceeded while decoding a JSON array from a unicode string")
  else Reference.loads s.

Definition limited_library : Library :=
  {| str_strip := Reference.strip;
     str_title := Reference.title;
     json_loads := loads_limited 1000;
     dict_validator := Reference.strict_dict;
     int_validator := Reference.strict_int;
     dict_validator_dict := fun d => eq_refl |}.

(** [n] opening brackets. *)
Fixpoint brackets (n : nat) : string :=
  match n with
  | O => ""
  | S n => String "[" (brackets n)
  end.

End Cases.

(** * Theorems *)

(** ** The brace span *)

Lemma upto_last_rbrace_last_index (s : string) :
  upto_last_rbrace s =
  match last_index "}" s with
  | Some j => Some (String.substring 0 (S j) s)
  | None => None
  end.
Proof.
  induction s as [|c rest IH]; [reflexivity|].
  cbn [upto_last_rbrace last_index]. rewrite IH.
  destruct (last_index "}" rest) as [j|]; [reflexivity|].
  destruct (c =? "}")%char; [|reflexivity].
  destruct rest; reflexivity.
Qed.

(** The regular-expression search returns the span from the first opening
    brace to the last closing brace. *)
Lemma re_search_braces_spec (s : string) :
  re_search_braces s = spec_brace_span s.
Proof.
  unfold spec_brace_span.
  induction s as [|c rest IH]; simpl; [reflexivity|].
  destruct (c =? "{")%char eqn:Hopen.
  - apply Ascii.eqb_eq in Hopen; subst c; simpl.
    rewrite upto_last_rbrace_last_index.
    destruct (last_index "}" rest) as [j|] eqn:Hlast.
    + replace (S j - 0 + 1) with (S (S j)) by lia. reflexivity.
    + rewrite IH. destruct (first_index "{" rest); reflexivity.
  - rewrite IH.
    destruct (first_index "{" rest) as [i|]; simpl; [|reflexivity].
    destruct (last_index "}" rest) as [j|]; simpl.
    + change (Nat.ltb (S i) (S j)) with (Nat.ltb i j).
      destruct (Nat.ltb i j); [|reflexivity].
      replace (S j - S i + 1) with (j - i + 1) by lia. reflexivity.
    + destruct (c =? "}")%char; reflexivity.
Qed.

Section Extraction.

Context {lib : Library} {agents : Agents}.

Lemma json_candidate_spec (raw : string) :
  json_candidate raw = spec_candidate raw.
Proof.
  unfold json_candidate, spec_candidate.
  rewrite re_search_braces_spec. reflexivity.
Qed.

Lemma new_RecipeResponse_dict (ok : bool) (d : dict) (err : option string) :
  new_RecipeResponse ok (JDict d) err
  = Ok {| recipe_success := ok; recipe := d; recipe_error := err |}.
Proof.
  unfold new_RecipeResponse. rewrite dict_validator_dict. reflexivity.
Qed.

Lemma extract_recipe_outcome (request : RecipeRequest) (raw : string) (g : Globals) :
  extract_recipe request raw g = (extract_outcome request raw, g).
Proof.
  unfold extract_recipe, extract_outcome, try_except, bind, lift, ret.
  destruct (json_loads (json_candidate raw)) as [v|e].
  - destruct (validate_required_fields required_fields v) as [[]|e]; [reflexivity|].
    destruct (is_ValueError e); reflexivity.
  - destruct (is_ValueError e); reflexivity.
Qed.

(** The response of the handler once the agent has been resolved and has
    answered. *)
Lemma generate_recipe_answered (request : RecipeRequest) (g : Globals)
      (agent : Agent) (result : AgentResult) :
  resolve (recipe_agent g) RecipeAgent = Ok agent ->
  execute agent (recipe_prompt request) None = Ok result ->
  fst (generate_recipe request g) =
  if success result then
    match extract_outcome request (content result) with
    | Ok recipe_data =>
        match new_RecipeResponse true recipe_data None with
        | Ok response => Ok response
        | Raise e => new_RecipeResponse false (JDict []) (Some (str e))
        end
    | Raise e => new_RecipeResponse false (JDict []) (Some (str e))
    end
  else Ok {| recipe_success := false; recipe := []; recipe_error := error result |}.
Proof.
  intros Hagent Hexec.
  unfold generate_recipe, try_except, bind, lift, get_globals, ret, set_recipe_agent, resolve in *.
  destruct (recipe_agent g) as [a|] eqn:Hslot; simpl in *.
  - rewrite Hslot. injection Hagent as ->. rewrite Hexec.
    destruct (success result).
    + rewrite extract_recipe_outcome.
      destruct (extract_outcome request (content result)) as [v|e]; simpl; [|reflexivity].
      destruct (new_RecipeResponse true v None); reflexivity.
    + rewrite new_RecipeResponse_dict. reflexivity.
  - rewrite Hagent; simpl. rewrite Hexec.
    destruct (success result).
    + rewrite extract_recipe_outcome.
      destruct (extract_outcome request (content result)) as [v|e]; simpl; [|reflexivity].
      destruct (new_RecipeResponse true v None); reflexivity.
    + rewrite new_RecipeResponse_dict. reflexivity.
Qed.

End Extraction.

Section Recipes.

Context {lib : Library} {agents : Agents}.

(** ** Validation of the required fields *)

Lemma validate_required_fields_dict (fields : list string) (d : dict) :
  forallb (dict_has d) fields = true ->
  validate_required_fields fields (JDict d) = Ok tt.
Proof.
  induction fields as [|field rest IH]; simpl; [reflexivity|].
  intros Hall. apply andb_prop in Hall as [Hfield Hrest].
  rewrite Hfield. apply IH, Hrest.
Qed.

(** A value that answers a membership test answers all of them. *)
Lemma py_in_container (field field' : string) (v : json) (b : bool) :
  py_in field v = Ok b -> exists b', py_in field' v = Ok b'.
Proof.
  destruct v; simpl; intros H; try discriminate; eexists; reflexivity.
Qed.

Lemma validate_required_fields_missing (fields : list string) (field : string) (v : json) :
  In field fields ->
  py_in field v = Ok false ->
  exists msg, validate_required_fields fields v = Raise (ValueError msg).
Proof.
  intros Hin Hmissing.
  induction fields as [|f rest IH]; [contradiction|].
  simpl. destruct (py_in_container field f v false Hmissing) as [b Hb]. rewrite Hb.
  destruct b; [|eexists; reflexivity].
  destruct Hin as [->|Hin]; [congruence|]. apply IH, Hin.
Qed.

(** On a scalar the first membership test raises [TypeError], which the
    inner [except] does not list. *)
Lemma validate_required_fields_scalar (v : json) :
  is_scalar v = true ->
  validate_required_fields required_fields v
  = Raise (TypeError ("argument of type '" ++ type_name v ++ "' is not iterable")).
Proof.
  destruct v; simpl; intros H; try discriminate; reflexivity.
Qed.

(** ** The fallback record *)

Lemma fallback_recipe_valid (request : RecipeRequest) :
  valid_record (fallback_recipe request) = true.
Proof. reflexivity. Qed.

Lemma fallback_recipe_ingredients (request : RecipeRequest) :
  dict_get (fallback_recipe request) "ingredients"
  = Some (JList (map fallback_ingredient (ingredients request))).
Proof. reflexivity. Qed.

Lemma parse_failure_activates_fallback (raw : string) :
  parse_fails_or_key_missing raw -> fallback_activated raw.
Proof.
  intros [[msg Hloads] | (v & field & Hloads & Hin & Hmissing)].
  - exists (JSONDecodeError msg). split; [reflexivity|]. left. exact Hloads.
  - destruct (validate_required_fields_missing _ _ _ Hin Hmissing) as [msg Hmsg].
    exists (ValueError msg). split; [reflexivity|]. right. exists v. split; assumption.
Qed.

Lemma extract_outcome_fallback (request : RecipeRequest) (raw : string) :
  fallback_activated raw ->
  extract_outcome request raw = Ok (JDict (fallback_recipe request)).
Proof.
  intros (e & Hclass & [Hloads | (v & Hloads & Hvalidate)]);
    unfold extract_outcome; rewrite Hloads.
  - rewrite Hclass. reflexivity.
  - rewrite Hvalidate, Hclass. reflexivity.
Qed.

(** The response when the fallback is entered. *)
Lemma generate_recipe_fallback (request : RecipeRequest) (g : Globals)
      (agent : Agent) (result : AgentResult) :
  resolve (recipe_agent g) RecipeAgent = Ok agent ->
  execute agent (recipe_prompt request) None = Ok result ->
  success result = true ->
  fallback_activated (content result) ->
  fst (generate_recipe request g)
  = Ok {| recipe_success := true; recipe := fallback_recipe request; recipe_error := None |}.
Proof.
  intros Hagent Hexec Hsuccess Hfallback.
  rewrite (generate_recipe_answered request g agent result Hagent Hexec), Hsuccess.
  rewrite (extract_outcome_fallback request _ Hfallback).
  rewrite new_RecipeResponse_dict. reflexivity.
Qed.

(** X25: when the agent succeeds and the candidate decodes to a number, a
    boolean or null, the handler answers success=false with the empty
    record and the text of the TypeError of the membership test. *)
Lemma generate_recipe_scalar (request : RecipeRequest) (g : Globals)
      (agent : Agent) (result : AgentResult) (v : json) :
  resolve (recipe_agent g) RecipeAgent = Ok agent ->
  execute agent (recipe_prompt request) None = Ok result ->
  success result = true ->
  json_loads (json_candidate (content result)) = Ok v ->
  is_scalar v = true ->
  fst (generate_recipe request g)
  = Ok {| recipe_success := false;
          recipe := [];
          recipe_error :=
            Some ("argument of type '" ++ type_name v ++ "' is not iterable") |}.
Proof.
  intros Hagent Hexec Hsuccess Hloads Hscalar.
  rewrite (generate_recipe_answered request g agent result Hagent Hexec), Hsuccess.
  unfold extract_outcome. rewrite Hloads, (validate_required_fields_scalar v Hscalar).
  simpl. apply new_RecipeResponse_dict.
Qed.

(** C2: when the agent succeeds and the trimmed content, cut to the span
    from its first opening brace to its last closing brace (or taken whole
    without such a span), decodes to a record holding the eight required
    keys, the response carries that record unchanged with success=true. *)
Theorem generate_recipe_returns_parsed_record
        (request : RecipeRequest) (g : Globals) (agent : Agent)
        (result : AgentResult) (d : dict) :
  resolve (recipe_agent g) RecipeAgent = Ok agent ->
  execute agent (recipe_prompt request) None = Ok result ->
  success result = true ->
  json_loads (spec_candidate (content result)) = Ok (JDict d) ->
  valid_record d = true ->
  fst (generate_recipe request g)
  = Ok {| recipe_success := true; recipe := d; recipe_error := None |}.
Proof.
  intros Hagent Hexec Hsuccess Hloads Hvalid.
  rewrite (generate_recipe_answered request g agent result Hagent Hexec), Hsuccess.
  unfold extract_outcome.
  rewrite json_candidate_spec, Hloads.
  rewrite (validate_required_fields_dict _ _ Hvalid).
  rewrite new_RecipeResponse_dict. reflexivity.
Qed.

(** X28: whenever the fallback synthesis is activated, the ingredients of
    the returned record are one entry per requested ingredient, in the
    order of the request, each with amount "1-2" and unit "portions". *)
Theorem fallback_ingredients_on_activation
        (request : RecipeRequest) (g : Globals) (agent : Agent) (result : AgentResult) :
  resolve (recipe_agent g) RecipeAgent = Ok agent ->
  execute agent (recipe_prompt request) None = Ok result ->
  success result = true ->
  fallback_activated (content result) ->
  exists response entries,
    fst (generate_recipe request g) = Ok response
    /\ recipe_success response = true
    /\ dict_get (recipe response) "ingredients" = Some (JList entries)
    /\ length entries = length (ingredients request)
    /\ entries
       = map (fun ing => JDict [("item", JStr ing); ("amount", JStr "1-2");
                                ("unit", JStr "portions")])
             (ingredients request).
Proof.
  intros Hagent Hexec Hsuccess Hfallback.
  eexists; eexists. split.
  - apply (generate_recipe_fallback request g agent result Hagent Hexec Hsuccess Hfallback).
  - cbn [recipe_success recipe]. rewrite fallback_recipe_ingredients.
    repeat split. apply length_map.
Qed.

(** C6: whenever the fallback synthesis is activated, the instructions of
    the returned record are five entries whose step numbers are 1, 2, 3, 4
    and 5, in that order. *)
Theorem fallback_instructions_numbered
        (request : RecipeRequest) (g : Globals) (agent : Agent) (result : AgentResult) :
  resolve (recipe_agent g) RecipeAgent = Ok agent ->
  execute agent (recipe_prompt request) None = Ok result ->
  success result = true ->
  fallback_activated (content result) ->
  exists response steps,
    fst (generate_recipe request g) = Ok response
    /\ dict_get (recipe response) "instructions" = Some (JList steps)
    /\ length steps = 5
    /\ map step_of steps
       = [Some (JInt 1); Some (JInt 2); Some (JInt 3); Some (JInt 4); Some (JInt 5)].
Proof.
  intros Hagent Hexec Hsuccess Hfallback.
  eexists; eexists. split.
  - apply (generate_recipe_fallback request g agent result Hagent Hexec Hsuccess Hfallback).
  - cbn [recipe]. repeat split.
Qed.

(** C8: when the agent's execute returns success=false, the response has
    success=false, an empty record and the agent's error as it is; the
    record is not the synthesized fallback. *)
Theorem generate_recipe_agent_failure
        (request : RecipeRequest) (g : Globals) (agent : Agent) (result : AgentResult) :
  resolve (recipe_agent g) RecipeAgent = Ok agent ->
  execute agent (recipe_prompt request) None = Ok result ->
  success result = false ->
  exists response,
    fst (generate_recipe request g) = Ok response
    /\ recipe_success response = false
    /\ recipe response = []
    /\ recipe_error response = error result
    /\ recipe response <> fallback_recipe request.
Proof.
  intros Hagent Hexec Hfailure.
  rewrite (generate_recipe_answered request g agent result Hagent Hexec), Hfailure.
  eexists. split; [reflexivity|]. repeat split. discriminate.
Qed.

End Recipes.

(** ** The recipe prompt *)

Lemma optional_line_truthy (label : string) (field : option string) :
  (if truthy field then [label ++ the field] else []) = optional_line label field.
Proof.
  destruct field as [[|c text]|]; reflexivity.
Qed.

(** C7, as amended: the prompt is the newline-joined list made of the line
    naming the comma-joined ingredients, then one line for the dietary
    restrictions when the list is not empty, then one line each for
    cuisine_type, meal_type and cooking_time when the field is present and
    not the empty text, in that order, then the template literal. *)
Theorem recipe_prompt_lines (request : RecipeRequest) :
  recipe_prompt request = join nl (nonempty_prompt_parts request).
Proof.
  unfold recipe_prompt, prompt_parts, nonempty_prompt_parts.
  rewrite !optional_line_truthy.
  destruct (dietary_restrictions request) as [[|r rs]|]; reflexivity.
Qed.

(** X26: on a request none of whose optional texts is the empty text, the
    prompt has one line for each optional text that is present. *)
Lemma recipe_prompt_spec (request : RecipeRequest) :
  cuisine_type request <> Some "" ->
  meal_type request <> Some "" ->
  cooking_time request <> Some "" ->
  recipe_prompt request = join nl (spec_prompt_parts request).
Proof.
  intros Hcuisine Hmeal Htime.
  rewrite recipe_prompt_lines.
  unfold nonempty_prompt_parts, spec_prompt_parts, optional_line.
  destruct (cuisine_type request) as [[|]|]; try congruence;
    destruct (meal_type request) as [[|]|]; try congruence;
    destruct (cooking_time request) as [[|]|]; try congruence; reflexivity.
Qed.

(** A cuisine that is present and empty gives no line. *)
Lemma recipe_prompt_skips_empty_cuisine :
  cuisine_type Demo.empty_cuisine = Some ""
  /\ In "Cuisine type: " (spec_prompt_parts Demo.empty_cuisine)
  /\ ~ In "Cuisine type: " (prompt_parts Demo.empty_cuisine)
  /\ recipe_prompt Demo.empty_cuisine <> join nl (spec_prompt_parts Demo.empty_cuisine).
Proof.
  split; [reflexivity|]. split; [simpl; auto|]. split.
  - simpl. intros [H|[H|[]]]; discriminate H.
  - apply String.eqb_neq. vm_compute. reflexivity.
Qed.

Section Dispatch.

Context {lib : Library} {agents : Agents}.

(** ** [/chat] *)

Lemma try_except_raised {A : Type} (body : M A) (caught : exn -> bool)
      (handler : exn -> M A) (g g' : Globals) (e : exn) :
  body g = (Raise e, g') ->
  caught e = true ->
  try_except body caught handler g = handler e g'.
Proof.
  intros Hraise Hcaught. unfold try_except. rewrite Hraise, Hcaught. reflexivity.
Qed.

(** C10: whenever the dispatch of a /chat request raises an exception, the
    response has success=false, an empty response text, no capabilities,
    empty metadata, the agent_type of the request, and the text of the
    exception as its error. *)
Theorem chat_exception_response
        (request : ChatRequest) (g g' : Globals) (e : exn) :
  chat_dispatch request g = (Raise e, g') ->
  chat_with_agent request g
  = (Ok {| chat_success := false;
           chat_response := "";
           chat_agent_type := agent_type request;
           chat_capabilities := [];
           chat_metadata := [];
           chat_error := Some (str e) |}, g').
Proof.
  intros Hraise. unfold chat_with_agent.
  rewrite (try_except_raised _ _ _ g g' e Hraise); reflexivity.
Qed.

(** A failing construction of the agent is such an exception. *)
Lemma chat_dispatch_construction_fails (request : ChatRequest) (g : Globals) (e : exn) :
  (agent_type request = "search" /\ search_agent g = None
   /\ SearchAgent agent_config = Raise e)
  \/ (agent_type request = "chat" /\ chat_agent g = None
      /\ ChatAgent agent_config = Raise e) ->
  chat_dispatch request g = (Raise e, g).
Proof.
  unfold chat_dispatch, bind, lift, get_globals.
  intros [(Htype & Hslot & Hnew) | (Htype & Hslot & Hnew)];
    rewrite Htype, Hslot, Hnew; reflexivity.
Qed.

(** The response to a request whose agent cannot be constructed. *)
Lemma chat_construction_failure_response (request : ChatRequest) (g : Globals) (e : exn) :
  (agent_type request = "search" /\ search_agent g = None
   /\ SearchAgent agent_config = Raise e)
  \/ (agent_type request = "chat" /\ chat_agent g = None
      /\ ChatAgent agent_config = Raise e) ->
  fst (chat_with_agent request g)
  = Ok {| chat_success := false;
          chat_response := "";
          chat_agent_type := agent_type request;
          chat_capabilities := [];
          chat_metadata := [];
          chat_error := Some (str e) |}.
Proof.
  intros Hfails. unfold chat_with_agent.
  rewrite (try_except_raised _ _ _ g g e
             (chat_dispatch_construction_fails request g e Hfails));
    reflexivity.
Qed.

(** The dispatch raises in one of five ways. *)
Lemma chat_dispatch_raises (request : ChatRequest) (g g' : Globals) (e : exn) :
  chat_dispatch request g = (Raise e, g') ->
  (agent_type request = "search" /\ search_agent g = None
   /\ SearchAgent agent_config = Raise e)
  \/ (agent_type request = "chat" /\ chat_agent g = None
      /\ ChatAgent agent_config = Raise e)
  \/ e = HTTPException 500 "Failed to initialize agent"
  \/ (exists agent, execute agent (message request) None = Raise e)
  \/ (exists agent, get_capabilities agent = Raise e).
Proof.
  unfold chat_dispatch, bind, lift, get_globals, ret, raise,
    set_search_agent, set_chat_agent.
  destruct (agent_type request =? "search") eqn:Hsearch;
    destruct (agent_type request =? "chat") eqn:Hchat;
    destruct (search_agent g) as [held_search|] eqn:Hheld_search;
    destruct (chat_agent g) as [held_chat|] eqn:Hheld_chat;
    cbn [andb is_None];
    try apply String.eqb_eq in Hsearch;
    try apply String.eqb_eq in Hchat;
    try (destruct (SearchAgent agent_config) as [new_search|] eqn:Hnew_search);
    try (destruct (ChatAgent agent_config) as [new_chat|] eqn:Hnew_chat);
    cbn [search_agent chat_agent];
    rewrite ?Hheld_search, ?Hheld_chat;
    repeat match goal with
      | |- context [execute ?a ?m ?t] => destruct (execute a m t) eqn:?
      | |- context [get_capabilities ?a] => destruct (get_capabilities a) eqn:?
      end;
    first
      [ discriminate
      | intros [= <- _];
        solve [ left; auto
              | right; left; auto
              | do 2 right; left; reflexivity
              | do 3 right; left; eexists; eassumption
              | do 4 right; eexists; eassumption ] ].
Qed.

(** C3, as amended: on a /chat request whose agent_type is neither "chat"
    nor "search", and with the chat agent already created, the handler runs
    the chat agent on the message as it does for a chat request, and the
    agent_type of the response is the agent_type of the request. *)
Theorem chat_unknown_type_uses_chat_agent
        (request : ChatRequest) (g : Globals) (agent : Agent)
        (response : AgentResult) (capabilities : list string) :
  agent_type request <> "search" ->
  agent_type request <> "chat" ->
  chat_agent g = Some agent ->
  execute agent (message request) None = Ok response ->
  get_capabilities agent = Ok capabilities ->
  chat_with_agent request g
  = (Ok {| chat_success := success response;
           chat_response := content response;
           chat_agent_type := agent_type request;
           chat_capabilities := capabilities;
           chat_metadata := metadata response;
           chat_error := error response |}, g).
Proof.
  intros Hsearch Hchat Hslot Hexec Hcaps.
  apply String.eqb_neq in Hsearch, Hchat.
  unfold chat_with_agent, chat_dispatch, try_except, bind, lift, get_globals, ret.
  rewrite Hsearch, Hchat. cbn [andb]. rewrite Hslot, Hexec, Hcaps. reflexivity.
Qed.

(** ** [/search] *)

(** C9: when the search agent's execute returns success=false, the response
    has success=false, the empty summary, sources_count 0 and the agent's
    error as it is. *)
Theorem search_agent_failure
        (request : SearchRequest) (g : Globals) (agent : Agent) (result : AgentResult) :
  resolve (search_agent g) SearchAgent = Ok agent ->
  execute agent (search_prompt request) (Some true) = Ok result ->
  success result = false ->
  fst (search_and_summarize request g)
  = Ok {| search_success := false;
          search_query := query request;
          search_summary := "";
          search_results := None;
          search_sources_count := 0;
          search_error := error result |}.
Proof.
  intros Hagent Hexec Hfailure.
  unfold search_and_summarize, try_except, bind, lift, get_globals, ret,
    set_search_agent, resolve in *.
  destruct (search_agent g) as [a|] eqn:Hslot; cbn [is_None].
  - try rewrite Hslot. injection Hagent as ->. rewrite Hexec, Hfailure. reflexivity.
  - rewrite Hagent. cbn [search_agent]. rewrite Hexec, Hfailure. reflexivity.
Qed.

(** ** [/agents/capabilities] *)

(** X27: [/agents/capabilities] always answers and never raises, and
    leaves the slots as they were. *)
Lemma get_agent_capabilities_returns (g : Globals) :
  exists body, get_agent_capabilities g = (Ok body, g).
Proof.
  unfold get_agent_capabilities, try_except, bind, lift, ret.
  destruct (SearchAgent agent_config) as [search|e]; [|eexists; reflexivity].
  destruct (get_capabilities search); [|eexists; reflexivity].
  destruct (ChatAgent agent_config) as [chat|e]; [|eexists; reflexivity].
  destruct (get_capabilities chat); eexists; reflexivity.
Qed.

(** C4, as amended: when the construction of an agent raises during a call
    of /agents/capabilities, the handler catches the exception and returns
    a body with success=false and the text of the exception as its error. *)
Theorem capabilities_construction_failure_caught (g : Globals) (e : exn) :
  SearchAgent agent_config = Raise e
  \/ (exists search search_capabilities,
        SearchAgent agent_config = Ok search
        /\ get_capabilities search = Ok search_capabilities
        /\ ChatAgent agent_config = Raise e) ->
  get_agent_capabilities g
  = (Ok (JDict [("success", JBool false); ("error", JStr (str e))]), g).
Proof.
  unfold get_agent_capabilities, try_except, bind, lift, ret.
  intros [Hsearch | (search & caps & Hsearch & Hcaps & Hchat)].
  - rewrite Hsearch. reflexivity.
  - rewrite Hsearch, Hcaps, Hchat. reflexivity.
Qed.

End Dispatch.

(** ** The handlers on concrete requests *)

Import Demo.

(** The slots once a chat agent has been created. *)
Lemma chat_created_by_first_request :
  snd (chat_with_agent
         (agents := agents_answering (succeeded "Hi there"))
         chat_request no_agents)
  = {| search_agent := None;
       chat_agent := Some (answering (succeeded "Hi there"));
       recipe_agent := None |}.
Proof. reflexivity. Qed.

(** An agent_type that is not recognized comes back as it was sent. *)
Lemma unknown_agent_type_is_echoed :
  let agents := agents_answering (succeeded "Hi there") in
  let g := {| search_agent := None;
              chat_agent := Some (answering (succeeded "Hi there"));
              recipe_agent := None |} in
  agent_type unknown_type_request <> "chat"
  /\ agent_type unknown_type_request <> "search"
  /\ exists response,
       fst (chat_with_agent (agents := agents)
              unknown_type_request g) = Ok response
       /\ chat_success response = true
       /\ chat_agent_type response = "translator"
       /\ chat_agent_type response <> "chat".
Proof.
  cbv zeta. split; [discriminate|]. split; [discriminate|].
  eexists. split; [reflexivity|]. cbn. repeat split. discriminate.
Qed.

(** Before any chat agent exists the same request is answered with the
    failure of the dispatch. *)
Lemma unknown_agent_type_without_chat_agent :
  chat_with_agent (agents := agents_answering (succeeded "Hi there"))
    unknown_type_request no_agents
  = (Ok {| chat_success := false;
           chat_response := "";
           chat_agent_type := "translator";
           chat_capabilities := [];
           chat_metadata := [];
           chat_error := Some "500: Failed to initialize agent" |}, no_agents).
Proof. reflexivity. Qed.

Lemma chat_unknown_type_uses_chat_agent_witness :
  chat_with_agent
    (agents := agents_answering (succeeded "Hi there"))
    unknown_type_request
    {| search_agent := None;
       chat_agent := Some (answering (succeeded "Hi there"));
       recipe_agent := None |}
  = (Ok {| chat_success := true;
           chat_response := "Hi there";
           chat_agent_type := "translator";
           chat_capabilities := ["conversation"; "reasoning"];
           chat_metadata := [];
           chat_error := None |},
     {| search_agent := None;
        chat_agent := Some (answering (succeeded "Hi there"));
        recipe_agent := None |}).
Proof.
  apply (@chat_unknown_type_uses_chat_agent
           (agents_answering (succeeded "Hi there")) unknown_type_request _
           (answering (succeeded "Hi there")) (succeeded "Hi there")
           ["conversation"; "reasoning"]).
  - discriminate.
  - discriminate.
  - reflexivity.
  - reflexivity.
  - reflexivity.
Defined.

Lemma chat_exception_response_witness :
  chat_with_agent
    (agents := agents_unavailable (RuntimeError "OPENAI_API_KEY is not set"))
    chat_request no_agents
  = (Ok {| chat_success := false;
           chat_response := "";
           chat_agent_type := "chat";
           chat_capabilities := [];
           chat_metadata := [];
           chat_error := Some "OPENAI_API_KEY is not set" |}, no_agents).
Proof.
  apply (@chat_exception_response
           (agents_unavailable (RuntimeError "OPENAI_API_KEY is not set"))
           chat_request no_agents no_agents (RuntimeError "OPENAI_API_KEY is not set")).
  reflexivity.
Defined.

Lemma search_agent_failure_witness :
  fst (search_and_summarize (lib := Reference.library)
         (agents := agents_answering (failed "rate limited"))
         rust_query no_agents)
  = Ok {| search_success := false;
          search_query := "rust ownership";
          search_summary := "";
          search_results := None;
          search_sources_count := 0;
          search_error := Some "rate limited" |}.
Proof.
  apply (@search_agent_failure Reference.library
           (agents_answering (failed "rate limited")) rust_query no_agents
           (answering (failed "rate limited")) (failed "rate limited")).
  - reflexivity.
  - reflexivity.
  - reflexivity.
Defined.

(** A failing constructor does not make the capability listing raise. *)
Lemma capabilities_failure_is_answered :
  let agents := agents_unavailable (RuntimeError "OPENAI_API_KEY is not set") in
  SearchAgent agent_config = Raise (RuntimeError "OPENAI_API_KEY is not set")
  /\ fst (get_agent_capabilities (agents := agents) no_agents)
     = Ok (JDict [("success", JBool false);
                  ("error", JStr "OPENAI_API_KEY is not set")])
  /\ forall e, fst (get_agent_capabilities (agents := agents) no_agents) <> Raise e.
Proof.
  cbv zeta. split; [reflexivity|]. split; [reflexivity|]. intros e. discriminate.
Qed.

Lemma capabilities_construction_failure_caught_witness :
  get_agent_capabilities
    (agents := agents_unavailable (RuntimeError "OPENAI_API_KEY is not set")) no_agents
  = (Ok (JDict [("success", JBool false);
                ("error", JStr "OPENAI_API_KEY is not set")]), no_agents).
Proof.
  apply (@capabilities_construction_failure_caught
           (agents_unavailable (RuntimeError "OPENAI_API_KEY is not set"))
           no_agents (RuntimeError "OPENAI_API_KEY is not set")).
  left. reflexivity.
Defined.

(** C1, at the content "42": the agent succeeds, the content decodes to the
    number 42, the membership test of the validation loop raises a
    TypeError that the inner except does not list, and the handler answers
    with success=false and an empty record. *)
Theorem generate_recipe_fails_on_number_content :
  Reference.loads (json_candidate (lib := Reference.library) "42") = Ok (JInt 42)
  /\ fst (generate_recipe (lib := Reference.library)
            (agents := agents_answering (succeeded "42"))
            chicken_rice no_agents)
     = Ok {| recipe_success := false;
             recipe := [];
             recipe_error := Some "argument of type 'int' is not iterable" |}.
Proof.
  split; vm_compute; reflexivity.
Qed.

(** C5, at the content "42": the agent succeeds and its content decodes to
    the number 42, which holds none of the required keys; the fallback is
    not entered, and the response is success=false with a record that has
    no ingredients field, although the request names two ingredients. *)
Theorem fallback_ingredients_absent_on_number_content :
  Reference.loads (json_candidate (lib := Reference.library) "42") = Ok (JInt 42)
  /\ (forall field, In field required_fields -> py_in field (JInt 42) <> Ok true)
  /\ ingredients chicken_rice = ["chicken"; "rice"]
  /\ exists response,
       fst (generate_recipe (lib := Reference.library)
              (agents := agents_answering (succeeded "42"))
              chicken_rice no_agents) = Ok response
       /\ recipe_success response = false
       /\ recipe response <> fallback_recipe (lib := Reference.library) chicken_rice
       /\ dict_get (recipe response) "ingredients" = None.
Proof.
  split; [vm_compute; reflexivity|].
  split; [intros field _; discriminate|].
  split; [reflexivity|].
  eexists. split; [vm_compute; reflexivity|].
  repeat split. discriminate.
Qed.

(** The same happens on a list that names the eight keys: it passes the
    validation loop and is refused by the response model. *)
Lemma generate_recipe_fails_on_list_of_keys :
  let answer := "[" ++ join ", " (map q required_fields) ++ "]" in
  fst (generate_recipe (lib := Reference.library)
         (agents := agents_answering (succeeded answer))
         chicken_rice no_agents)
  = Ok {| recipe_success := false;
          recipe := [];
          recipe_error := Some "Input should be a valid dictionary" |}.
Proof. vm_compute. reflexivity. Qed.

Lemma generate_recipe_returns_parsed_record_witness :
  fst (generate_recipe (lib := Reference.library)
         (agents := agents_answering (succeeded thai_answer))
         chicken_rice no_agents)
  = Ok {| recipe_success := true; recipe := thai_record; recipe_error := None |}.
Proof.
  apply (@generate_recipe_returns_parsed_record Reference.library
           (agents_answering (succeeded thai_answer)) chicken_rice no_agents
           (answering (succeeded thai_answer)) (succeeded thai_answer) thai_record).
  - reflexivity.
  - reflexivity.
  - reflexivity.
  - vm_compute. reflexivity.
  - reflexivity.
Defined.

Lemma fallback_ingredients_on_activation_witness :
  exists response entries,
    fst (generate_recipe (lib := Reference.library)
           (agents := agents_answering (succeeded "I cannot help with that."))
           chicken_rice no_agents) = Ok response
    /\ recipe_success response = true
    /\ dict_get (recipe response) "ingredients" = Some (JList entries)
    /\ length entries = 2
    /\ entries
       = map (fun ing => JDict [("item", JStr ing); ("amount", JStr "1-2");
                                ("unit", JStr "portions")])
             ["chicken"; "rice"].
Proof.
  apply (@fallback_ingredients_on_activation Reference.library
           (agents_answering (succeeded "I cannot help with that.")) chicken_rice no_agents
           (answering (succeeded "I cannot help with that."))
           (succeeded "I cannot help with that.")).
  - reflexivity.
  - reflexivity.
  - reflexivity.
  - exists (JSONDecodeError "Expecting value"). split; [reflexivity|].
    left. vm_compute. reflexivity.
Defined.

Lemma fallback_instructions_numbered_witness :
  exists response steps,
    fst (generate_recipe (lib := Reference.library)
           (agents := agents_answering (succeeded "{}"))
           chicken_rice no_agents) = Ok response
    /\ dict_get (recipe response) "instructions" = Some (JList steps)
    /\ length steps = 5
    /\ map step_of steps
       = [Some (JInt 1); Some (JInt 2); Some (JInt 3); Some (JInt 4); Some (JInt 5)].
Proof.
  apply (@fallback_instructions_numbered Reference.library
           (agents_answering (succeeded "{}")) chicken_rice no_agents
           (answering (succeeded "{}")) (succeeded "{}")).
  - reflexivity.
  - reflexivity.
  - reflexivity.
  - exists (ValueError "Missing required field: name"). split; [reflexivity|].
    right. exists (JDict []). split; vm_compute; reflexivity.
Defined.

Lemma generate_recipe_agent_failure_witness :
  exists response,
    fst (generate_recipe (lib := Reference.library)
           (agents := agents_answering (failed "model overloaded"))
           chicken_rice no_agents) = Ok response
    /\ recipe_success response = false
    /\ recipe response = []
    /\ recipe_error response = Some "model overloaded"
    /\ recipe response <> fallback_recipe (lib := Reference.library) chicken_rice.
Proof.
  apply (@generate_recipe_agent_failure Reference.library
           (agents_answering (failed "model overloaded")) chicken_rice no_agents
           (answering (failed "model overloaded")) (failed "model overloaded")).
  - reflexivity.
  - reflexivity.
  - reflexivity.
Defined.

(** The two recipe scenarios of the specification. *)
Example thai_answer_is_extracted :
  fst (generate_recipe (lib := Reference.library)
         (agents := agents_answering (succeeded thai_answer))
         chicken_rice no_agents)
  = Ok {| recipe_success := true; recipe := thai_record; recipe_error := None |}.
Proof. vm_compute. reflexivity. Qed.

Example refusal_is_replaced_by_fallback :
  exists response,
    fst (generate_recipe (lib := Reference.library)
           (agents := agents_answering (succeeded "I cannot help with that."))
           chicken_rice no_agents) = Ok response
    /\ recipe_success response = true
    /\ dict_get (recipe response) "name" = Some (JStr "Thai Dish with chicken, rice").
Proof. eexists. vm_compute. repeat split. Qed.

(** * Further properties of the handlers *)

Section RecipeHandler.

Context {lib : Library} {agents : Agents}.

(** The slots after [generate_recipe]: only the recipe slot can change, and
    only from empty to the constructed agent. *)
Lemma generate_recipe_state (request : RecipeRequest) (g : Globals) :
  snd (generate_recipe request g)
  = match recipe_agent g with
    | Some _ => g
    | None =>
        match RecipeAgent agent_config with
        | Ok agent => with_recipe_agent g agent
        | Raise _ => g
        end
    end.
Proof.
  unfold generate_recipe, try_except, bind, lift, get_globals, ret, raise,
    set_recipe_agent, with_recipe_agent.
  destruct (recipe_agent g) as [held|] eqn:Hheld; cbn [is_None].
  - rewrite ?Hheld.
    destruct (execute held (recipe_prompt request) None) as [result|e]; [|reflexivity].
    destruct (success result).
    + rewrite extract_recipe_outcome.
      destruct (extract_outcome request (content result)) as [v|e]; [|reflexivity].
      destruct (new_RecipeResponse true v None); reflexivity.
    + destruct (new_RecipeResponse false (JDict []) (error result)); reflexivity.
  - destruct (RecipeAgent agent_config) as [agent|e]; [|reflexivity].
    cbn [recipe_agent].
    destruct (execute agent (recipe_prompt request) None) as [result|e]; [|reflexivity].
    destruct (success result).
    + rewrite extract_recipe_outcome.
      destruct (extract_outcome request (content result)) as [v|e]; [|reflexivity].
      destruct (new_RecipeResponse true v None); reflexivity.
    + destruct (new_RecipeResponse false (JDict []) (error result)); reflexivity.
Qed.

(** A handler that holds its agent does not consult the constructor. *)
Lemma generate_recipe_held (agents' : Agents) (request : RecipeRequest) (g : Globals)
      (agent : Agent) :
  recipe_agent g = Some agent ->
  generate_recipe (agents := agents') request g
  = generate_recipe (agents := agents) request g.
Proof.
  intros Hheld.
  unfold generate_recipe, try_except, bind, lift, get_globals, ret, raise.
  rewrite Hheld. reflexivity.
Qed.

(** The response when the agent cannot be constructed, and when its
    [execute] raises. *)
Lemma generate_recipe_unresolved (request : RecipeRequest) (g : Globals) (e : exn) :
  resolve (recipe_agent g) RecipeAgent = Raise e ->
  fst (generate_recipe request g)
  = Ok {| recipe_success := false; recipe := []; recipe_error := Some (str e) |}.
Proof.
  unfold resolve, generate_recipe, try_except, bind, lift, get_globals.
  destruct (recipe_agent g) as [held|]; [discriminate|].
  intros ->. cbn. apply new_RecipeResponse_dict.
Qed.

Lemma generate_recipe_execute_raises (request : RecipeRequest) (g : Globals)
      (agent : Agent) (e : exn) :
  resolve (recipe_agent g) RecipeAgent = Ok agent ->
  execute agent (recipe_prompt request) None = Raise e ->
  fst (generate_recipe request g)
  = Ok {| recipe_success := false; recipe := []; recipe_error := Some (str e) |}.
Proof.
  unfold resolve, generate_recipe, try_except, bind, lift, get_globals, ret,
    set_recipe_agent.
  destruct (recipe_agent g) as [held|] eqn:Hheld; cbn [is_None].
  - intros [= ->] Hexec. rewrite ?Hheld, Hexec. cbn. apply new_RecipeResponse_dict.
  - intros -> Hexec. cbn [recipe_agent]. rewrite Hexec. cbn.
    apply new_RecipeResponse_dict.
Qed.

(** X1: [generate_recipe] always answers, never raises; a success=true
    answer carries no error, and a success=false answer carries the empty
    record. *)
Theorem generate_recipe_response_shape (request : RecipeRequest) (g : Globals) :
  exists response,
    fst (generate_recipe request g) = Ok response
    /\ ((recipe_success response = true /\ recipe_error response = None)
        \/ (recipe_success response = false /\ recipe response = [])).
Proof.
  destruct (resolve (recipe_agent g) RecipeAgent) as [agent|e] eqn:Hagent.
  2: { rewrite (generate_recipe_unresolved request g e Hagent).
       eexists. split; [reflexivity|]. right. split; reflexivity. }
  destruct (execute agent (recipe_prompt request) None) as [result|e] eqn:Hexec.
  2: { rewrite (generate_recipe_execute_raises request g agent e Hagent Hexec).
       eexists. split; [reflexivity|]. right. split; reflexivity. }
  rewrite (generate_recipe_answered request g agent result Hagent Hexec).
  destruct (success result).
  2: { eexists. split; [reflexivity|]. right. split; reflexivity. }
  destruct (extract_outcome request (content result)) as [v|e].
  - unfold new_RecipeResponse at 1.
    destruct (dict_validator v) as [d|e].
    + eexists. split; [reflexivity|]. left. split; reflexivity.
    + rewrite new_RecipeResponse_dict.
      eexists. split; [reflexivity|]. right. split; reflexivity.
  - rewrite new_RecipeResponse_dict.
    eexists. split; [reflexivity|]. right. split; reflexivity.
Qed.

End RecipeHandler.

Section RecipeExtraction.

Context {lib : Library} {agents : Agents}.

(** X2: after [generate_recipe] the search and chat slots are as before,
    and the recipe slot holds the agent the handler resolved, whatever the
    agent then answered or raised; it stays empty when the constructor
    raised. *)
Theorem generate_recipe_slots (request : RecipeRequest) (g : Globals) :
  search_agent (snd (generate_recipe request g)) = search_agent g
  /\ chat_agent (snd (generate_recipe request g)) = chat_agent g
  /\ recipe_agent (snd (generate_recipe request g))
     = match resolve (recipe_agent g) RecipeAgent with
       | Ok agent => Some agent
       | Raise _ => None
       end.
Proof.
  rewrite generate_recipe_state. unfold resolve.
  destruct (recipe_agent g) as [held|] eqn:Hheld.
  - rewrite Hheld. repeat split.
  - destruct (RecipeAgent agent_config) as [agent|e]; cbn; rewrite ?Hheld; repeat split.
Qed.

(** X3: once a request has resolved the recipe agent, a later request runs
    with that agent and does not depend on the constructor any more. *)
Theorem generate_recipe_constructs_once
        (agents' : Agents) (first second : RecipeRequest) (g : Globals) (agent : Agent) :
  resolve (agents := agents) (recipe_agent g) (@RecipeAgent agents) = Ok agent ->
  generate_recipe (agents := agents') second
    (snd (generate_recipe (agents := agents) first g))
  = generate_recipe (agents := agents) second
      (snd (generate_recipe (agents := agents) first g)).
Proof.
  intros Hagent.
  apply (@generate_recipe_held lib agents agents' second _ agent).
  rewrite (@generate_recipe_state lib agents). unfold resolve in Hagent.
  destruct (recipe_agent g) as [held|] eqn:Hheld.
  - congruence.
  - rewrite Hagent. reflexivity.
Qed.

(** The validation of a dict either passes, with every field present, or
    raises a [ValueError]. *)
Lemma validate_required_fields_dict_cases (fields : list string) (d : dict) :
  (validate_required_fields fields (JDict d) = Ok tt
   /\ forallb (dict_has d) fields = true)
  \/ exists msg, validate_required_fields fields (JDict d) = Raise (ValueError msg).
Proof.
  induction fields as [|field rest IH]; simpl.
  - left. split; reflexivity.
  - destruct (dict_has d field); [|right; eexists; reflexivity].
    destruct IH as [[Hok Hall] | [msg Hmsg]].
    + left. split; assumption.
    + right. exists msg. exact Hmsg.
Qed.

(** X4: on a dict the validation loop raises for the first field of the
    list that is not a key, naming it, and passes when there is none. *)
Theorem validate_required_fields_first_missing (fields : list string) (d : dict) :
  validate_required_fields fields (JDict d)
  = match first_missing fields d with
    | Some field => Raise (ValueError ("Missing required field: " ++ field))
    | None => Ok tt
    end.
Proof.
  unfold first_missing.
  induction fields as [|field rest IH]; simpl; [reflexivity|].
  destruct (dict_has d field); simpl; [exact IH | reflexivity].
Qed.

(** X5: when the agent succeeds and the candidate either fails to decode
    with an error of the [ValueError] family or decodes to a dict, the
    answer is success=true, without error, and its record holds the eight
    required keys. *)
Theorem generate_recipe_valid_record
        (request : RecipeRequest) (g : Globals) (agent : Agent) (result : AgentResult) :
  resolve (recipe_agent g) RecipeAgent = Ok agent ->
  execute agent (recipe_prompt request) None = Ok result ->
  success result = true ->
  (exists e, is_ValueError e = true
             /\ json_loads (json_candidate (content result)) = Raise e)
  \/ (exists d, json_loads (json_candidate (content result)) = Ok (JDict d)) ->
  exists response,
    fst (generate_recipe request g) = Ok response
    /\ recipe_success response = true
    /\ recipe_error response = None
    /\ valid_record (recipe response) = true.
Proof.
  intros Hagent Hexec Hsuccess Hdecoded.
  rewrite (generate_recipe_answered request g agent result Hagent Hexec), Hsuccess.
  unfold extract_outcome.
  destruct Hdecoded as [(e & Hclass & Hloads) | (d & Hloads)]; rewrite Hloads.
  - rewrite Hclass, new_RecipeResponse_dict.
    eexists. split; [reflexivity|]. repeat split.
  - destruct (validate_required_fields_dict_cases required_fields d)
      as [[Hok Hall] | [msg Hmsg]].
    + rewrite Hok, new_RecipeResponse_dict.
      eexists. split; [reflexivity|]. repeat split. exact Hall.
    + rewrite Hmsg. cbn [is_ValueError]. rewrite new_RecipeResponse_dict.
      eexists. split; [reflexivity|]. repeat split.
Qed.

(** X6: when the decoder raises an exception outside the [ValueError]
    family, the inner handler lets it through and the answer is
    success=false with the empty record and the text of the exception. *)
Theorem generate_recipe_decoder_exception
        (request : RecipeRequest) (g : Globals) (agent : Agent) (result : AgentResult)
        (e : exn) :
  resolve (recipe_agent g) RecipeAgent = Ok agent ->
  execute agent (recipe_prompt request) None = Ok result ->
  success result = true ->
  json_loads (json_candidate (content result)) = Raise e ->
  is_ValueError e = false ->
  fst (generate_recipe request g)
  = Ok {| recipe_success := false; recipe := []; recipe_error := Some (str e) |}.
Proof.
  intros Hagent Hexec Hsuccess Hloads Hclass.
  rewrite (generate_recipe_answered request g agent result Hagent Hexec), Hsuccess.
  unfold extract_outcome. rewrite Hloads, Hclass.
  apply new_RecipeResponse_dict.
Qed.

(** X7: when [execute] itself raises, the answer is success=false with the
    empty record and the text of the exception. *)
Theorem generate_recipe_execute_exception
        (request : RecipeRequest) (g : Globals) (agent : Agent) (e : exn) :
  resolve (recipe_agent g) RecipeAgent = Ok agent ->
  execute agent (recipe_prompt request) None = Raise e ->
  fst (generate_recipe request g)
  = Ok {| recipe_success := false; recipe := []; recipe_error := Some (str e) |}
  /\ recipe_agent (snd (generate_recipe request g)) = Some agent.
Proof.
  intros Hagent Hexec. split.
  - apply (generate_recipe_execute_raises request g agent e Hagent Hexec).
  - rewrite generate_recipe_state. unfold resolve in Hagent.
    destruct (recipe_agent g) as [held|] eqn:Hheld.
    + congruence.
    + rewrite Hagent. reflexivity.
Qed.

(** X8: the record synthesized by the fallback holds the eight required
    keys followed by tips and nutrition, with the fixed preparation time,
    servings and difficulty, and as cooking time the one of the request
    when it is present and not empty, "30 minutes" otherwise. *)
Theorem fallback_fixed_fields
        (request : RecipeRequest) (g : Globals) (agent : Agent) (result : AgentResult) :
  resolve (recipe_agent g) RecipeAgent = Ok agent ->
  execute agent (recipe_prompt request) None = Ok result ->
  success result = true ->
  fallback_activated (content result) ->
  exists response,
    fst (generate_recipe request g) = Ok response
    /\ map fst (recipe response) = (required_fields ++ ["tips"; "nutrition"])%list
    /\ dict_get (recipe response) "prep_time" = Some (JStr "15 minutes")
    /\ dict_get (recipe response) "servings" = Some (JStr "4")
    /\ dict_get (recipe response) "difficulty" = Some (JStr "Medium")
    /\ dict_get (recipe response) "cook_time"
       = Some (JStr match cooking_time request with
                    | Some "" | None => "30 minutes"
                    | Some preference => preference
                    end).
Proof.
  intros Hagent Hexec Hsuccess Hfallback.
  eexists. split.
  - apply (generate_recipe_fallback request g agent result Hagent Hexec Hsuccess Hfallback).
  - cbn [recipe]. unfold fallback_recipe. cbn.
    destruct (cooking_time request) as [[|c t]|]; repeat split.
Qed.

End RecipeExtraction.

(** Case analysis on the type of a [/chat] request, on the slots and on
    the outcomes of the constructors and of the agent. *)
Ltac chat_cases request g :=
  let Hsearch := fresh "Hsearch" in
  let Hchat := fresh "Hchat" in
  let Hheld_search := fresh "Hheld_search" in
  let Hheld_chat := fresh "Hheld_chat" in
  destruct (agent_type request =? "search") eqn:Hsearch;
  destruct (agent_type request =? "chat") eqn:Hchat;
  [ exfalso; apply String.eqb_eq in Hsearch; apply String.eqb_eq in Hchat; congruence
  | .. ];
  destruct (search_agent g) eqn:Hheld_search;
  destruct (chat_agent g) eqn:Hheld_chat;
  cbn [andb negb is_None];
  try (destruct (SearchAgent agent_config));
  try (destruct (ChatAgent agent_config));
  cbn [search_agent chat_agent];
  rewrite ?Hheld_search, ?Hheld_chat;
  repeat match goal with
    | |- context [execute ?a ?m ?t] => destruct (execute a m t)
    | |- context [get_capabilities ?a] => destruct (get_capabilities a)
    end.

Section ChatHandler.

Context {agents : Agents}.

(** The response of [/chat] on every path. *)
Lemma chat_with_agent_outcome (request : ChatRequest) (g : Globals) :
  fst (chat_with_agent request g)
  = Ok match chat_resolve request g with
       | Ok agent =>
           match execute agent (message request) None with
           | Ok response =>
               match get_capabilities agent with
               | Ok capabilities => chat_reply request response capabilities
               | Raise e => chat_failure request e
               end
           | Raise e => chat_failure request e
           end
       | Raise e => chat_failure request e
       end.
Proof.
  unfold chat_with_agent, chat_dispatch, chat_resolve, resolve, try_except, bind,
    lift, get_globals, ret, raise, set_search_agent, set_chat_agent.
  chat_cases request g; reflexivity.
Qed.

(** The slots after [/chat]. *)
Lemma chat_with_agent_state (request : ChatRequest) (g : Globals) :
  snd (chat_with_agent request g)
  = if agent_type request =? "search" then
      match search_agent g, SearchAgent agent_config with
      | None, Ok agent => with_search_agent g agent
      | _, _ => g
      end
    else if agent_type request =? "chat" then
      match chat_agent g, ChatAgent agent_config with
      | None, Ok agent => with_chat_agent g agent
      | _, _ => g
      end
    else g.
Proof.
  unfold chat_with_agent, chat_dispatch, try_except, bind,
    lift, get_globals, ret, raise, set_search_agent, set_chat_agent,
    with_search_agent, with_chat_agent.
  chat_cases request g; reflexivity.
Qed.

(** X9: [/chat] always answers, never raises, and the agent_type of the
    answer is the agent_type of the request on every path. *)
Theorem chat_response_echoes_agent_type (request : ChatRequest) (g : Globals) :
  exists response,
    fst (chat_with_agent request g) = Ok response
    /\ chat_agent_type response = agent_type request.
Proof.
  rewrite chat_with_agent_outcome.
  eexists. split; [reflexivity|].
  destruct (chat_resolve request g) as [agent|e]; [|reflexivity].
  destruct (execute agent (message request) None) as [response|e]; [|reflexivity].
  destruct (get_capabilities agent); reflexivity.
Qed.

(** X10: for the types "chat" and "search", with the agent of that type
    resolved and answering, the response of [/chat] carries the success
    flag, content, metadata and error of the agent's result as they are,
    also when the agent reports a failure, and the agent's capabilities. *)
Theorem chat_known_type_passthrough
        (request : ChatRequest) (g : Globals) (agent : Agent)
        (response : AgentResult) (capabilities : list string) :
  (agent_type request = "search" /\ resolve (search_agent g) SearchAgent = Ok agent)
  \/ (agent_type request = "chat" /\ resolve (chat_agent g) ChatAgent = Ok agent) ->
  execute agent (message request) None = Ok response ->
  get_capabilities agent = Ok capabilities ->
  fst (chat_with_agent request g)
  = Ok {| chat_success := success response;
          chat_response := content response;
          chat_agent_type := agent_type request;
          chat_capabilities := capabilities;
          chat_metadata := metadata response;
          chat_error := error response |}.
Proof.
  intros Hresolved Hexec Hcaps.
  rewrite chat_with_agent_outcome. unfold chat_resolve.
  destruct Hresolved as [[Htype Hagent] | [Htype Hagent]]; rewrite Htype; cbn;
    rewrite Hagent, Hexec, Hcaps; unfold chat_reply; rewrite Htype; reflexivity.
Qed.

(** X11: after [/chat] the recipe slot is as before; the slot of the
    requested type holds the agent the handler resolved, or stays empty
    when its constructor raised; the other slot, and both slots for an
    unrecognized type, are as before. *)
Theorem chat_with_agent_slots (request : ChatRequest) (g : Globals) :
  recipe_agent (snd (chat_with_agent request g)) = recipe_agent g
  /\ search_agent (snd (chat_with_agent request g))
     = (if agent_type request =? "search" then
          match resolve (search_agent g) SearchAgent with
          | Ok agent => Some agent
          | Raise _ => None
          end
        else search_agent g)
  /\ chat_agent (snd (chat_with_agent request g))
     = (if agent_type request =? "chat" then
          match resolve (chat_agent g) ChatAgent with
          | Ok agent => Some agent
          | Raise _ => None
          end
        else chat_agent g).
Proof.
  rewrite chat_with_agent_state. unfold resolve.
  chat_cases request g; cbn; repeat split; assumption.
Qed.

End ChatHandler.

Section SearchHandler.

Context {lib : Library} {agents : Agents}.

(** The response of [/search] on every path. *)
Lemma search_and_summarize_outcome (request : SearchRequest) (g : Globals) :
  fst (search_and_summarize request g)
  = Ok match resolve (search_agent g) SearchAgent with
       | Ok agent =>
           match execute agent (search_prompt request) (Some true) with
           | Ok result =>
               if success result then
                 match int_validator
                         (dict_get_default (metadata result) "tools_used" (JInt 0)) with
                 | Ok sources_count =>
                     {| search_success := true;
                        search_query := query request;
                        search_summary := content result;
                        search_results := Some (metadata result);
                        search_sources_count := sources_count;
                        search_error := None |}
                 | Raise e => search_failure request (Some (str e))
                 end
               else search_failure request (error result)
           | Raise e => search_failure request (Some (str e))
           end
       | Raise e => search_failure request (Some (str e))
       end.
Proof.
  unfold search_and_summarize, resolve, try_except, bind, lift, get_globals, ret,
    raise, set_search_agent, search_failure.
  destruct (search_agent g) as [held|] eqn:Hheld; cbn [is_None].
  - rewrite ?Hheld.
    destruct (execute held (search_prompt request) (Some true)) as [result|e];
      [|reflexivity].
    destruct (success result); [|reflexivity].
    destruct (int_validator _); reflexivity.
  - destruct (SearchAgent agent_config) as [agent|e]; [|reflexivity].
    cbn [search_agent].
    destruct (execute agent (search_prompt request) (Some true)) as [result|e];
      [|reflexivity].
    destruct (success result); [|reflexivity].
    destruct (int_validator _); reflexivity.
Qed.

(** The slots after [/search]. *)
Lemma search_and_summarize_state (request : SearchRequest) (g : Globals) :
  snd (search_and_summarize request g)
  = match search_agent g, SearchAgent agent_config with
    | None, Ok agent => with_search_agent g agent
    | _, _ => g
    end.
Proof.
  unfold search_and_summarize, try_except, bind, lift, get_globals, ret,
    raise, set_search_agent, with_search_agent.
  destruct (search_agent g) as [held|] eqn:Hheld; cbn [is_None].
  - rewrite ?Hheld.
    destruct (execute held (search_prompt request) (Some true)) as [result|e];
      [|reflexivity].
    destruct (success result); [|reflexivity].
    destruct (int_validator _); reflexivity.
  - destruct (SearchAgent agent_config) as [agent|e]; [|reflexivity].
    cbn [search_agent].
    destruct (execute agent (search_prompt request) (Some true)) as [result|e];
      [|reflexivity].
    destruct (success result); [|reflexivity].
    destruct (int_validator _); reflexivity.
Qed.

(** X12: [/search] always answers, never raises; the answer repeats the
    query; a success=true answer has search results and no error, and a
    success=false answer has the empty summary, no search results and
    sources_count 0. *)
Theorem search_response_shape (request : SearchRequest) (g : Globals) :
  exists response,
    fst (search_and_summarize request g) = Ok response
    /\ search_query response = query request
    /\ ((search_success response = true
         /\ search_error response = None
         /\ search_results response <> None)
        \/ (search_success response = false
            /\ search_summary response = ""
            /\ search_results response = None
            /\ search_sources_count response = 0%Z)).
Proof.
  rewrite search_and_summarize_outcome.
  eexists. split; [reflexivity|].
  destruct (resolve (search_agent g) SearchAgent) as [agent|e];
    [|split; [reflexivity | right; repeat split]].
  destruct (execute agent (search_prompt request) (Some true)) as [result|e];
    [|split; [reflexivity | right; repeat split]].
  destruct (success result); [|split; [reflexivity | right; repeat split]].
  destruct (int_validator _); [|split; [reflexivity | right; repeat split]].
  split; [reflexivity|]. left. repeat split. discriminate.
Qed.

(** X13: when the search agent succeeds and the value of tools_used in its
    metadata (0 when the key is absent) is accepted as an integer, the
    answer is success=true with the content as summary, the metadata as
    search results and that integer as sources_count. *)
Theorem search_success_response
        (request : SearchRequest) (g : Globals) (agent : Agent) (result : AgentResult)
        (count : Z) :
  resolve (search_agent g) SearchAgent = Ok agent ->
  execute agent (search_prompt request) (Some true) = Ok result ->
  success result = true ->
  int_validator (dict_get_default (metadata result) "tools_used" (JInt 0)) = Ok count ->
  fst (search_and_summarize request g)
  = Ok {| search_success := true;
          search_query := query request;
          search_summary := content result;
          search_results := Some (metadata result);
          search_sources_count := count;
          search_error := None |}.
Proof.
  intros Hagent Hexec Hsuccess Hcount.
  rewrite search_and_summarize_outcome, Hagent, Hexec, Hsuccess, Hcount. reflexivity.
Qed.

(** X14: when the metadata of a successful search has no tools_used key,
    the value validated for sources_count is the integer 0. *)
Theorem search_without_tools_used
        (request : SearchRequest) (g : Globals) (agent : Agent) (result : AgentResult) :
  resolve (search_agent g) SearchAgent = Ok agent ->
  execute agent (search_prompt request) (Some true) = Ok result ->
  success result = true ->
  dict_get (metadata result) "tools_used" = None ->
  int_validator (JInt 0) = Ok 0%Z ->
  exists response,
    fst (search_and_summarize request g) = Ok response
    /\ search_success response = true
    /\ search_sources_count response = 0%Z.
Proof.
  intros Hagent Hexec Hsuccess Habsent Hzero.
  rewrite search_and_summarize_outcome, Hagent, Hexec, Hsuccess.
  unfold dict_get_default. rewrite Habsent, Hzero.
  eexists. split; [reflexivity|]. split; reflexivity.
Qed.

(** X15: when the search agent succeeds but the value of tools_used is
    refused as an integer, the answer is success=false, with the empty
    summary and the text of the validation error, and the agent's content
    is dropped. *)
Theorem search_invalid_tools_used
        (request : SearchRequest) (g : Globals) (agent : Agent) (result : AgentResult)
        (e : exn) :
  resolve (search_agent g) SearchAgent = Ok agent ->
  execute agent (search_prompt request) (Some true) = Ok result ->
  success result = true ->
  int_validator (dict_get_default (metadata result) "tools_used" (JInt 0)) = Raise e ->
  fst (search_and_summarize request g)
  = Ok {| search_success := false;
          search_query := query request;
          search_summary := "";
          search_results := None;
          search_sources_count := 0;
          search_error := Some (str e) |}.
Proof.
  intros Hagent Hexec Hsuccess Hcount.
  rewrite search_and_summarize_outcome, Hagent, Hexec, Hsuccess, Hcount. reflexivity.
Qed.

(** X16: after [/search] the chat and recipe slots are as before and the
    search slot holds the agent the handler resolved, or stays empty when
    the constructor raised. *)
Theorem search_and_summarize_slots (request : SearchRequest) (g : Globals) :
  chat_agent (snd (search_and_summarize request g)) = chat_agent g
  /\ recipe_agent (snd (search_and_summarize request g)) = recipe_agent g
  /\ search_agent (snd (search_and_summarize request g))
     = match resolve (search_agent g) SearchAgent with
       | Ok agent => Some agent
       | Raise _ => None
       end.
Proof.
  rewrite search_and_summarize_state. unfold resolve.
  destruct (search_agent g) as [held|] eqn:Hheld.
  - rewrite Hheld. repeat split.
  - destruct (SearchAgent agent_config) as [agent|e]; cbn; rewrite ?Hheld; repeat split.
Qed.

(** X17: the search agent created by [/search] is the one a later [/chat]
    request of type "search" runs, whatever the constructor would then
    return. *)
Theorem search_agent_shared_with_chat
        (agents' : Agents) (searched : SearchRequest) (request : ChatRequest)
        (g : Globals) (agent : Agent) (response : AgentResult)
        (capabilities : list string) :
  agent_type request = "search" ->
  resolve (agents := agents) (search_agent g) (@SearchAgent agents) = Ok agent ->
  execute agent (message request) None = Ok response ->
  get_capabilities agent = Ok capabilities ->
  fst (chat_with_agent (agents := agents') request
         (snd (search_and_summarize (agents := agents) searched g)))
  = Ok {| chat_success := success response;
          chat_response := content response;
          chat_agent_type := "search";
          chat_capabilities := capabilities;
          chat_metadata := metadata response;
          chat_error := error response |}.
Proof.
  intros Htype Hagent Hexec Hcaps.
  assert (Hheld : search_agent (snd (search_and_summarize (agents := agents) searched g))
                  = Some agent).
  { rewrite search_and_summarize_state. unfold resolve in Hagent.
    destruct (search_agent g) as [held|] eqn:Hheld.
    - congruence.
    - rewrite Hagent. reflexivity. }
  rewrite (@chat_with_agent_outcome agents'). unfold chat_resolve, resolve.
  rewrite Htype, Hheld. cbn. rewrite Hexec, Hcaps.
  unfold chat_reply. rewrite Htype. reflexivity.
Qed.

End SearchHandler.

Section CapabilitiesHandler.

Context {agents : Agents}.

(** X18: when both constructors and both capability listings succeed,
    [/agents/capabilities] answers success=true with the two lists under
    search_agent and chat_agent. *)
Theorem capabilities_listed
        (g : Globals) (search chat : Agent) (search_capabilities chat_capabilities : list string) :
  SearchAgent agent_config = Ok search ->
  get_capabilities search = Ok search_capabilities ->
  ChatAgent agent_config = Ok chat ->
  get_capabilities chat = Ok chat_capabilities ->
  fst (get_agent_capabilities g)
  = Ok (JDict [("success", JBool true);
               ("capabilities",
                JDict [("search_agent", JList (map JStr search_capabilities));
                       ("chat_agent", JList (map JStr chat_capabilities))])]).
Proof.
  intros Hsearch Hsearch_caps Hchat Hchat_caps.
  unfold get_agent_capabilities, try_except, bind, lift, ret.
  rewrite Hsearch, Hsearch_caps, Hchat, Hchat_caps. reflexivity.
Qed.

(** X19: [/agents/capabilities] neither reads nor writes the agent slots:
    its answer is the same whatever they hold, and they are left as they
    were. *)
Theorem capabilities_ignore_slots (g g' : Globals) :
  fst (get_agent_capabilities g) = fst (get_agent_capabilities g')
  /\ snd (get_agent_capabilities g) = g.
Proof.
  unfold get_agent_capabilities, try_except, bind, lift, ret.
  destruct (SearchAgent agent_config) as [search|e]; [|split; reflexivity].
  destruct (get_capabilities search); [|split; reflexivity].
  destruct (ChatAgent agent_config) as [chat|e]; [|split; reflexivity].
  destruct (get_capabilities chat); split; reflexivity.
Qed.

(** X20: when a capability listing raises, [/agents/capabilities] answers
    success=false with the text of the exception. *)
Theorem capabilities_listing_failure_caught (g : Globals) (e : exn) :
  (exists search,
      SearchAgent agent_config = Ok search /\ get_capabilities search = Raise e)
  \/ (exists search search_capabilities chat,
        SearchAgent agent_config = Ok search
        /\ get_capabilities search = Ok search_capabilities
        /\ ChatAgent agent_config = Ok chat
        /\ get_capabilities chat = Raise e) ->
  fst (get_agent_capabilities g)
  = Ok (JDict [("success", JBool false); ("error", JStr (str e))]).
Proof.
  unfold get_agent_capabilities, try_except, bind, lift, ret.
  intros [(search & Hsearch & Hcaps)
         | (search & caps & chat & Hsearch & Hcaps & Hchat & Hchat_caps)].
  - rewrite Hsearch, Hcaps. reflexivity.
  - rewrite Hsearch, Hcaps, Hchat, Hchat_caps. reflexivity.
Qed.

End CapabilitiesHandler.

(** ** The brace span and the candidate text *)

Lemma upto_last_rbrace_lacks (s : string) :
  lacks "}" s = true <-> upto_last_rbrace s = None.
Proof.
  induction s as [|c rest IH]; simpl; [tauto|].
  destruct (c =? "}")%char; simpl.
  - split; [discriminate|]. destruct (upto_last_rbrace rest); discriminate.
  - rewrite IH. destruct (upto_last_rbrace rest); split; congruence.
Qed.

Lemma re_search_braces_lacks_rbrace (s : string) :
  lacks "}" s = true -> re_search_braces s = None.
Proof.
  induction s as [|c rest IH]; simpl; [reflexivity|].
  intros Hlacks. apply andb_prop in Hlacks as [_ Hrest].
  rewrite (IH Hrest).
  apply upto_last_rbrace_lacks in Hrest. rewrite Hrest.
  destruct (c =? "{")%char; reflexivity.
Qed.

Lemma re_search_braces_lacks_lbrace (s : string) :
  lacks "{" s = true -> re_search_braces s = None.
Proof.
  induction s as [|c rest IH]; simpl; [reflexivity|].
  intros Hlacks. apply andb_prop in Hlacks as [Hc Hrest].
  apply negb_true_iff in Hc. rewrite Hc. apply IH, Hrest.
Qed.

Lemma upto_last_rbrace_closing (body post : string) :
  lacks "}" post = true ->
  upto_last_rbrace (body ++ "}" ++ post) = Some (body ++ "}").
Proof.
  intros Hpost. induction body as [|c body IH]; simpl in *.
  - apply upto_last_rbrace_lacks in Hpost. rewrite Hpost. reflexivity.
  - rewrite IH. reflexivity.
Qed.

Lemma upto_last_rbrace_split (s p : string) :
  upto_last_rbrace s = Some p ->
  exists body post,
    s = body ++ "}" ++ post /\ p = body ++ "}" /\ lacks "}" post = true.
Proof.
  revert p. induction s as [|c rest IH]; simpl; [discriminate|].
  intros p. destruct (upto_last_rbrace rest) as [p'|] eqn:Hrest.
  - intros [= <-]. destruct (IH p' eq_refl) as (body & post & -> & -> & Hpost).
    exists (String c body), post. repeat split. exact Hpost.
  - destruct (c =? "}")%char eqn:Hc; [|discriminate].
    intros [= <-]. apply Ascii.eqb_eq in Hc. subst c.
    exists "", rest. repeat split. apply upto_last_rbrace_lacks, Hrest.
Qed.

Lemma re_search_braces_wrapped (pre body post : string) :
  lacks "{" pre = true ->
  lacks "}" post = true ->
  re_search_braces (pre ++ "{" ++ body ++ "}" ++ post) = Some ("{" ++ body ++ "}").
Proof.
  intros Hpre Hpost. induction pre as [|c pre IH]; simpl.
  - pose proof (upto_last_rbrace_closing body post Hpost) as Hclosing.
    simpl in Hclosing. rewrite Hclosing. reflexivity.
  - simpl in Hpre. apply andb_prop in Hpre as [Hc Hpre].
    apply negb_true_iff in Hc. rewrite Hc. apply IH, Hpre.
Qed.

(** X21: a match of the search is a part of the text that opens with the
    first opening brace of the text and closes with its last closing
    brace. *)
Theorem re_search_braces_shape (content matched : string) :
  re_search_braces content = Some matched ->
  exists pre body post,
    content = pre ++ "{" ++ body ++ "}" ++ post
    /\ matched = "{" ++ body ++ "}"
    /\ lacks "{" pre = true
    /\ lacks "}" post = true.
Proof.
  induction content as [|c rest IH]; simpl; [discriminate|].
  destruct (c =? "{")%char eqn:Hc.
  - apply Ascii.eqb_eq in Hc. subst c.
    destruct (upto_last_rbrace rest) as [p|] eqn:Hrest.
    + intros [= <-].
      destruct (upto_last_rbrace_split rest p Hrest) as (body & post & -> & -> & Hpost).
      exists "", body, post. repeat split. exact Hpost.
    + apply upto_last_rbrace_lacks in Hrest.
      rewrite (re_search_braces_lacks_rbrace rest Hrest). discriminate.
  - intros Hmatch. destruct (IH Hmatch) as (pre & body & post & -> & -> & Hpre & Hpost).
    exists (String c pre), body, post. repeat split; [|exact Hpost].
    simpl. rewrite Hc, Hpre. reflexivity.
Qed.

Section Candidate.

Context {lib : Library} {agents : Agents}.

(** X22: when the trimmed content is an object text wrapped in a prefix
    without opening brace and a suffix without closing brace, the candidate
    handed to the decoder is the object text alone. *)
Theorem json_candidate_wrapped (raw pre body post : string) :
  str_strip raw = pre ++ "{" ++ body ++ "}" ++ post ->
  lacks "{" pre = true ->
  lacks "}" post = true ->
  json_candidate raw = "{" ++ body ++ "}".
Proof.
  intros Hstrip Hpre Hpost. unfold json_candidate.
  rewrite Hstrip, (re_search_braces_wrapped pre body post Hpre Hpost). reflexivity.
Qed.

(** X23: when the trimmed content has no opening brace, or no closing
    brace, the candidate is the whole trimmed content. *)
Theorem json_candidate_without_braces (raw : string) :
  lacks "{" (str_strip raw) = true \/ lacks "}" (str_strip raw) = true ->
  json_candidate raw = str_strip raw.
Proof.
  unfold json_candidate. intros [Hlacks | Hlacks].
  - rewrite (re_search_braces_lacks_lbrace _ Hlacks). reflexivity.
  - rewrite (re_search_braces_lacks_rbrace _ Hlacks). reflexivity.
Qed.

(** X24: prose around the record is tolerated: when the agent succeeds and
    its trimmed content wraps, between a prefix without opening brace and a
    suffix without closing brace, an object text that decodes to a record
    holding the eight required keys, the answer carries that record. *)
Theorem generate_recipe_tolerates_prose
        (request : RecipeRequest) (g : Globals) (agent : Agent) (result : AgentResult)
        (pre body post : string) (d : dict) :
  resolve (recipe_agent g) RecipeAgent = Ok agent ->
  execute agent (recipe_prompt request) None = Ok result ->
  success result = true ->
  str_strip (content result) = pre ++ "{" ++ body ++ "}" ++ post ->
  lacks "{" pre = true ->
  lacks "}" post = true ->
  json_loads ("{" ++ body ++ "}") = Ok (JDict d) ->
  valid_record d = true ->
  fst (generate_recipe request g)
  = Ok {| recipe_success := true; recipe := d; recipe_error := None |}.
Proof.
  intros Hagent Hexec Hsuccess Hstrip Hpre Hpost Hloads Hvalid.
  rewrite (generate_recipe_answered request g agent result Hagent Hexec), Hsuccess.
  unfold extract_outcome, json_candidate.
  rewrite Hstrip, (re_search_braces_wrapped pre body post Hpre Hpost), Hloads.
  rewrite (validate_required_fields_dict _ _ Hvalid).
  rewrite new_RecipeResponse_dict. reflexivity.
Qed.

End Candidate.

(** ** The further properties on concrete requests *)

Import Cases.

Lemma generate_recipe_constructs_once_witness :
  generate_recipe (lib := Reference.library)
    (agents := agents_unavailable (RuntimeError "OPENAI_API_KEY is not set"))
    quick_request
    (snd (generate_recipe (lib := Reference.library)
            (agents := agents_answering (succeeded thai_answer))
            chicken_rice no_agents))
  = generate_recipe (lib := Reference.library)
      (agents := agents_answering (succeeded thai_answer))
      quick_request
      (snd (generate_recipe (lib := Reference.library)
              (agents := agents_answering (succeeded thai_answer))
              chicken_rice no_agents)).
Proof.
  apply (@generate_recipe_constructs_once Reference.library
           (agents_answering (succeeded thai_answer))
           (agents_unavailable (RuntimeError "OPENAI_API_KEY is not set"))
           chicken_rice quick_request no_agents (answering (succeeded thai_answer))).
  reflexivity.
Defined.

Lemma generate_recipe_valid_record_witness :
  exists response,
    fst (generate_recipe (lib := Reference.library)
           (agents := agents_answering (succeeded "{}"))
           quick_request no_agents) = Ok response
    /\ recipe_success response = true
    /\ recipe_error response = None
    /\ valid_record (recipe response) = true.
Proof.
  apply (@generate_recipe_valid_record Reference.library
           (agents_answering (succeeded "{}")) quick_request no_agents
           (answering (succeeded "{}")) (succeeded "{}")).
  - reflexivity.
  - reflexivity.
  - reflexivity.
  - right. exists []. vm_compute. reflexivity.
Defined.

Lemma generate_recipe_decoder_exception_witness :
  fst (generate_recipe (lib := limited_library)
         (agents := agents_answering (succeeded (brackets 1001)))
         chicken_rice no_agents)
  = Ok {| recipe_success := false;
          recipe := [];
          recipe_error :=
            Some "maximum recursion depth exceeded while decoding a JSON array from a unicode string" |}.
Proof.
  apply (@generate_recipe_decoder_exception limited_library
           (agents_answering (succeeded (brackets 1001))) chicken_rice no_agents
           (answering (succeeded (brackets 1001))) (succeeded (brackets 1001))
           (RuntimeError "maximum recursion depth exceeded while decoding a JSON array from a unicode string")).
  - reflexivity.
  - reflexivity.
  - reflexivity.
  - vm_compute. reflexivity.
  - reflexivity.
Defined.

Lemma generate_recipe_execute_exception_witness :
  fst (generate_recipe (lib := Reference.library)
         (agents := agents_returning (raising (RuntimeError "connection reset")))
         chicken_rice no_agents)
  = Ok {| recipe_success := false;
          recipe := [];
          recipe_error := Some "connection reset" |}
  /\ recipe_agent
       (snd (generate_recipe (lib := Reference.library)
               (agents := agents_returning (raising (RuntimeError "connection reset")))
               chicken_rice no_agents))
     = Some (raising (RuntimeError "connection reset")).
Proof.
  apply (@generate_recipe_execute_exception Reference.library
           (agents_returning (raising (RuntimeError "connection reset")))
           chicken_rice no_agents (raising (RuntimeError "connection reset"))
           (RuntimeError "connection reset")).
  - reflexivity.
  - reflexivity.
Defined.

Lemma generate_recipe_scalar_witness :
  fst (generate_recipe (lib := Reference.library)
         (agents := agents_answering (succeeded " null "))
         quick_request no_agents)
  = Ok {| recipe_success := false;
          recipe := [];
          recipe_error := Some "argument of type 'NoneType' is not iterable" |}.
Proof.
  apply (@generate_recipe_scalar Reference.library
           (agents_answering (succeeded " null ")) quick_request no_agents
           (answering (succeeded " null ")) (succeeded " null ") JNull).
  - reflexivity.
  - reflexivity.
  - reflexivity.
  - vm_compute. reflexivity.
  - reflexivity.
Defined.

Lemma fallback_fixed_fields_witness :
  exists response,
    fst (generate_recipe (lib := Reference.library)
           (agents := agents_answering (succeeded "Sorry, no recipe today."))
           quick_request no_agents) = Ok response
    /\ map fst (recipe response) = (required_fields ++ ["tips"; "nutrition"])%list
    /\ dict_get (recipe response) "prep_time" = Some (JStr "15 minutes")
    /\ dict_get (recipe response) "servings" = Some (JStr "4")
    /\ dict_get (recipe response) "difficulty" = Some (JStr "Medium")
    /\ dict_get (recipe response) "cook_time" = Some (JStr "10 minutes").
Proof.
  apply (@fallback_fixed_fields Reference.library
           (agents_answering (succeeded "Sorry, no recipe today.")) quick_request no_agents
           (answering (succeeded "Sorry, no recipe today."))
           (succeeded "Sorry, no recipe today.")).
  - reflexivity.
  - reflexivity.
  - reflexivity.
  - exists (JSONDecodeError "Expecting value"). split; [reflexivity|].
    left. vm_compute. reflexivity.
Defined.

Lemma recipe_prompt_spec_witness :
  recipe_prompt quick_request = join nl (spec_prompt_parts quick_request).
Proof.
  apply (recipe_prompt_spec quick_request); discriminate.
Defined.

Lemma chat_known_type_passthrough_witness :
  fst (chat_with_agent (agents := agents_answering (failed "rate limited"))
         chat_request no_agents)
  = Ok {| chat_success := false;
          chat_response := "";
          chat_agent_type := "chat";
          chat_capabilities := ["conversation"; "reasoning"];
          chat_metadata := [];
          chat_error := Some "rate limited" |}.
Proof.
  apply (@chat_known_type_passthrough (agents_answering (failed "rate limited"))
           chat_request no_agents (answering (failed "rate limited"))
           (failed "rate limited") ["conversation"; "reasoning"]).
  - right. split; reflexivity.
  - reflexivity.
  - reflexivity.
Defined.

Lemma search_success_response_witness :
  fst (search_and_summarize (lib := Reference.library)
         (agents := agents_answering (searched "Ownership moves values." (JInt 3)))
         rust_query no_agents)
  = Ok {| search_success := true;
          search_query := "rust ownership";
          search_summary := "Ownership moves values.";
          search_results := Some [("tools_used", JInt 3)];
          search_sources_count := 3;
          search_error := None |}.
Proof.
  apply (@search_success_response Reference.library
           (agents_answering (searched "Ownership moves values." (JInt 3)))
           rust_query no_agents
           (answering (searched "Ownership moves values." (JInt 3)))
           (searched "Ownership moves values." (JInt 3)) 3%Z).
  - reflexivity.
  - reflexivity.
  - reflexivity.
  - reflexivity.
Defined.

Lemma search_without_tools_used_witness :
  exists response,
    fst (search_and_summarize (lib := Reference.library)
           (agents := agents_answering (succeeded "Ownership moves values."))
           rust_query no_agents) = Ok response
    /\ search_success response = true
    /\ search_sources_count response = 0%Z.
Proof.
  apply (@search_without_tools_used Reference.library
           (agents_answering (succeeded "Ownership moves values."))
           rust_query no_agents
           (answering (succeeded "Ownership moves values."))
           (succeeded "Ownership moves values.")).
  - reflexivity.
  - reflexivity.
  - reflexivity.
  - reflexivity.
  - reflexivity.
Defined.

Lemma search_invalid_tools_used_witness :
  fst (search_and_summarize (lib := Reference.library)
         (agents := agents_answering (searched "Ownership moves values." (JStr "many")))
         rust_query no_agents)
  = Ok {| search_success := false;
          search_query := "rust ownership";
          search_summary := "";
          search_results := None;
          search_sources_count := 0;
          search_error := Some "Input should be a valid integer" |}.
Proof.
  apply (@search_invalid_tools_used Reference.library
           (agents_answering (searched "Ownership moves values." (JStr "many")))
           rust_query no_agents
           (answering (searched "Ownership moves values." (JStr "many")))
           (searched "Ownership moves values." (JStr "many"))
           (ValidationError "Input should be a valid integer")).
  - reflexivity.
  - reflexivity.
  - reflexivity.
  - reflexivity.
Defined.

Lemma search_agent_shared_with_chat_witness :
  fst (chat_with_agent
         (agents := agents_unavailable (RuntimeError "OPENAI_API_KEY is not set"))
         search_type_request
         (snd (search_and_summarize (lib := Reference.library)
                 (agents := agents_answering (succeeded "Rocq 9.1 is out."))
                 rust_query no_agents)))
  = Ok {| chat_success := true;
          chat_response := "Rocq 9.1 is out.";
          chat_agent_type := "search";
          chat_capabilities := ["conversation"; "reasoning"];
          chat_metadata := [];
          chat_error := None |}.
Proof.
  apply (@search_agent_shared_with_chat Reference.library
           (agents_answering (succeeded "Rocq 9.1 is out."))
           (agents_unavailable (RuntimeError "OPENAI_API_KEY is not set"))
           rust_query search_type_request no_agents
           (answering (succeeded "Rocq 9.1 is out.")) (succeeded "Rocq 9.1 is out.")
           ["conversation"; "reasoning"]).
  - reflexivity.
  - reflexivity.
  - reflexivity.
  - reflexivity.
Defined.

Lemma capabilities_listed_witness :
  fst (get_agent_capabilities (agents := agents_answering (succeeded "")) no_agents)
  = Ok (JDict [("success", JBool true);
               ("capabilities",
                JDict [("search_agent", JList [JStr "conversation"; JStr "reasoning"]);
                       ("chat_agent", JList [JStr "conversation"; JStr "reasoning"])])]).
Proof.
  apply (@capabilities_listed (agents_answering (succeeded "")) no_agents
           (answering (succeeded "")) (answering (succeeded ""))
           ["conversation"; "reasoning"] ["conversation"; "reasoning"]);
    reflexivity.
Defined.

Lemma capabilities_listing_failure_caught_witness :
  fst (get_agent_capabilities
         (agents := agents_returning (unlisted (succeeded "") (RuntimeError "no tools")))
         no_agents)
  = Ok (JDict [("success", JBool false); ("error", JStr "no tools")]).
Proof.
  apply (@capabilities_listing_failure_caught
           (agents_returning (unlisted (succeeded "") (RuntimeError "no tools")))
           no_agents (RuntimeError "no tools")).
  left. exists (unlisted (succeeded "") (RuntimeError "no tools")). split; reflexivity.
Defined.

Lemma re_search_braces_shape_witness :
  exists pre body post,
    "a}b{c{d}e}f{g" = pre ++ "{" ++ body ++ "}" ++ post
    /\ "{c{d}e}" = "{" ++ body ++ "}"
    /\ lacks "{" pre = true
    /\ lacks "}" post = true.
Proof.
  apply (re_search_braces_shape "a}b{c{d}e}f{g" "{c{d}e}"). reflexivity.
Defined.

Lemma json_candidate_wrapped_witness :
  json_candidate (lib := Reference.library) "  Sure, here it is: {}. Enjoy!  " = "{}".
Proof.
  apply (@json_candidate_wrapped Reference.library
           "  Sure, here it is: {}. Enjoy!  " "Sure, here it is: " "" ". Enjoy!").
  - reflexivity.
  - reflexivity.
  - reflexivity.
Defined.

Lemma json_candidate_without_braces_witness :
  json_candidate (lib := Reference.library) "  I cannot help with that.  "
  = "I cannot help with that.".
Proof.
  apply (@json_candidate_without_braces Reference.library
           "  I cannot help with that.  ").
  left. reflexivity.
Defined.

Lemma generate_recipe_tolerates_prose_witness :
  fst (generate_recipe (lib := Reference.library)
         (agents := agents_answering (succeeded ("  " ++ thai_answer ++ " Enjoy!  ")))
         chicken_rice no_agents)
  = Ok {| recipe_success := true; recipe := thai_record; recipe_error := None |}.
Proof.
  apply (@generate_recipe_tolerates_prose Reference.library
           (agents_answering (succeeded ("  " ++ thai_answer ++ " Enjoy!  ")))
           chicken_rice no_agents
           (answering (succeeded ("  " ++ thai_answer ++ " Enjoy!  ")))
           (succeeded ("  " ++ thai_answer ++ " Enjoy!  "))
           "Here you go: "
           (String.substring 14 (String.length thai_answer - 15) thai_answer)
           " Enjoy!" thai_record).
  - reflexivity.
  - reflexivity.
  - reflexivity.
  - vm_compute. reflexivity.
  - reflexivity.
  - reflexivity.
  - vm_compute. reflexivity.
  - reflexivity.
Defined.
